(** * The PubSub demo file server: [demo/serve.py]

    A shallow embedding of [PubSubDemoHandler.do_GET] and of the parts of
    the Python 3.11 standard library it calls ([urllib.parse], [base64],
    [bytes.decode], [json]), followed by the properties of the handler.

    Conventions.
    - A Python [str] is a list of code points, a [bytes] object a list of
      octets, both as [N].
    - Library calls return a [result]: a value, a raised exception, or
      [OutOfModel] where the library's behaviour is not captured here
      (host validation of a bracketed or non-ASCII network location,
      arrays and objects nested more than 100 deep, for which the
      interpreter's recursion limit matters, and strings with a lone
      surrogate). A [float] read by [json.loads] is kept as its text.
    - [print] appends one line to the console log and does not fail; a line
      keeps the literal pieces of the f-string and the values interpolated
      in it.
    - The call [super().do_GET()] is recorded as an effect on the request;
      what the inherited handler answers is outside this development. *)

From Stdlib Require Import List String Ascii NArith ZArith Bool Lia.
From Stdlib Require Import DecimalString.
Import ListNotations.
Local Open Scope N_scope.

(** ** Python values *)

Module Py.

Definition str := list N.
Definition bytes := list N.

(** A literal of the source, as a [str] (ASCII literals only). *)
Definition lit (s : string) : str :=
  map N_of_ascii (list_ascii_of_string s).

Fixpoint str_eqb (a b : str) : bool :=
  match a, b with
  | [], [] => true
  | x :: a', y :: b' => (x =? y) && str_eqb a' b'
  | _, _ => false
  end.

(** The values [json.loads] can build. A [float] is kept as the text it
    was read from; a [dict] as its items in insertion order, keys unique. *)
#[warnings="-register-all"]
Inductive value : Type :=
| VNone
| VBool (b : bool)
| VInt (z : Z)
| VFloat (text : str)
| VStr (s : str)
| VList (l : list value)
| VDict (items : list (str * value)).

(** Exceptions, all of them subclasses of [Exception]. *)
Inductive exn : Type :=
| ValueError (msg : string)
| BinasciiError (msg : string)
| UnicodeDecodeError (start : nat)
| JSONDecodeError (msg : string)
| AttributeError (msg : string)
| TypeError (msg : string)
| IndexError (msg : string).

Inductive result (A : Type) : Type :=
| Ok (a : A)
| Raise (e : exn)
| OutOfModel.
Arguments Ok {A} a.
Arguments Raise {A} e.
Arguments OutOfModel {A}.

Definition rbind {A B} (r : result A) (k : A -> result B) : result B :=
  match r with
  | Ok a => k a
  | Raise e => Raise e
  | OutOfModel => OutOfModel
  end.

(** [d.get(key, default)] and [key in d] on an insertion-ordered dict. *)
Fixpoint dict_find {V} (key : str) (items : list (str * V)) : option V :=
  match items with
  | [] => None
  | (k, v) :: rest => if str_eqb k key then Some v else dict_find key rest
  end.

Definition dict_get {V} (key : str) (default : V) (items : list (str * V)) : V :=
  match dict_find key items with
  | Some v => v
  | None => default
  end.

(** [d[key] = v]: overwrite in place, or append a new item. *)
Fixpoint dict_set {V} (key : str) (v : V) (items : list (str * V)) : list (str * V) :=
  match items with
  | [] => [(key, v)]
  | (k, w) :: rest =>
      if str_eqb k key then (k, v) :: rest else (k, w) :: dict_set key v rest
  end.

(** [x[:n]]: defined on [str] and [list]; a [TypeError] on the rest. *)
Definition slice_to (n : nat) (x : value) : result value :=
  match x with
  | VStr s => Ok (VStr (firstn n s))
  | VList l => Ok (VList (firstn n l))
  | VDict _ => Raise (TypeError "unhashable type: 'slice'")
  | VNone => Raise (TypeError "'NoneType' object is not subscriptable")
  | VBool _ => Raise (TypeError "'bool' object is not subscriptable")
  | VInt _ => Raise (TypeError "'int' object is not subscriptable")
  | VFloat _ => Raise (TypeError "'float' object is not subscriptable")
  end.

(** [len(x)]. *)
Definition len (x : value) : result nat :=
  match x with
  | VStr s => Ok (List.length s)
  | VList l => Ok (List.length l)
  | VDict d => Ok (List.length d)
  | VNone => Raise (TypeError "object of type 'NoneType' has no len()")
  | VBool _ => Raise (TypeError "object of type 'bool' has no len()")
  | VInt _ => Raise (TypeError "object of type 'int' has no len()")
  | VFloat _ => Raise (TypeError "object of type 'float' has no len()")
  end.

(** [l[0]] *)
Definition index0 {A} (l : list A) : result A :=
  match l with
  | x :: _ => Ok x
  | [] => Raise (IndexError "list index out of range")
  end.

(** [x.get(key, default)]: only a [dict] has the method. *)
Definition get (x : value) (key : str) (default : value) : result value :=
  match x with
  | VDict d => Ok (dict_get key default d)
  | VNone => Raise (AttributeError "'NoneType' object has no attribute 'get'")
  | VBool _ => Raise (AttributeError "'bool' object has no attribute 'get'")
  | VInt _ => Raise (AttributeError "'int' object has no attribute 'get'")
  | VFloat _ => Raise (AttributeError "'float' object has no attribute 'get'")
  | VStr _ => Raise (AttributeError "'str' object has no attribute 'get'")
  | VList _ => Raise (AttributeError "'list' object has no attribute 'get'")
  end.

End Py.

(** ** [bytes.decode('utf-8')] *)

Module Utf8.
Import Py.

Definition between (lo hi b : N) : bool := (lo <=? b) && (b <=? hi).

Definition is_cont (b : N) : bool := between 128 191 b.

(** The range allowed for the second byte after lead byte [b0]. *)
Definition second_ok (b0 b1 : N) : bool :=
  if b0 =? 224 then between 160 191 b1
  else if b0 =? 237 then between 128 159 b1
  else if b0 =? 240 then between 144 191 b1
  else if b0 =? 244 then between 128 143 b1
  else is_cont b1.

Inductive step : Type :=
| Char (cp : N) (rest : bytes)
| Bad (n : nat) (rest : bytes).

Definition low6 (b : N) : N := N.land b 63.

(** Decode one code point from a non-empty input, or report how many bytes
    the ill-formed prefix has. *)
Definition decode1 (b0 : N) (bs : bytes) : step :=
  if b0 <? 128 then Char b0 bs
  else if between 194 223 b0 then
    match bs with
    | b1 :: r =>
        if second_ok b0 b1
        then Char (N.lor (N.shiftl (N.land b0 31) 6) (low6 b1)) r
        else Bad 1 bs
    | [] => Bad 1 bs
    end
  else if between 224 239 b0 then
    match bs with
    | b1 :: r1 =>
        if second_ok b0 b1 then
          match r1 with
          | b2 :: r2 =>
              if is_cont b2
              then Char (N.lor (N.shiftl (N.land b0 15) 12)
                          (N.lor (N.shiftl (low6 b1) 6) (low6 b2))) r2
              else Bad 2 r1
          | [] => Bad 2 r1
          end
        else Bad 1 bs
    | [] => Bad 1 bs
    end
  else if between 240 244 b0 then
    match bs with
    | b1 :: r1 =>
        if second_ok b0 b1 then
          match r1 with
          | b2 :: r2 =>
              if is_cont b2 then
                match r2 with
                | b3 :: r3 =>
                    if is_cont b3
                    then Char (N.lor (N.shiftl (N.land b0 7) 18)
                                (N.lor (N.shiftl (low6 b1) 12)
                                   (N.lor (N.shiftl (low6 b2) 6) (low6 b3)))) r3
                    else Bad 3 r2
                | [] => Bad 3 r2
                end
              else Bad 2 r1
          | [] => Bad 2 r1
          end
        else Bad 1 bs
    | [] => Bad 1 bs
    end
  else Bad 1 bs.

(** The decoders walk the input with a budget of one step per byte, which
    is never used up since every step consumes at least one byte. *)
Fixpoint decode_strict_from (fuel pos : nat) (bs : bytes) : result str :=
  match bs with
  | [] => Ok []
  | b0 :: r =>
      match fuel with
      | O => OutOfModel
      | S fuel' =>
          match decode1 b0 r with
          | Char cp rest =>
              rbind (decode_strict_from fuel' (pos + (List.length bs - List.length rest)) rest)
                    (fun s => Ok (cp :: s))
          | Bad _ _ => Raise (UnicodeDecodeError pos)
          end
      end
  end.

(** [b.decode('utf-8')] *)
Definition decode (bs : bytes) : result str :=
  decode_strict_from (List.length bs) 0 bs.

Fixpoint decode_replace_from (fuel : nat) (bs : bytes) : str :=
  match bs with
  | [] => []
  | b0 :: r =>
      match fuel with
      | O => []
      | S fuel' =>
          match decode1 b0 r with
          | Char cp rest => cp :: decode_replace_from fuel' rest
          | Bad _ rest => 65533 :: decode_replace_from fuel' rest
          end
      end
  end.

(** [b.decode('utf-8', 'replace')] *)
Definition decode_replace (bs : bytes) : str :=
  decode_replace_from (List.length bs) bs.

End Utf8.

(** ** [base64.urlsafe_b64decode] *)

Module Base64.
Import Py.

(** [str(n)] for a count inside an error message. *)
Definition decimal (n : nat) : string :=
  NilEmpty.string_of_uint (Nat.to_uint n).

(** [table_a2b_base64]: the value of a character of the standard alphabet. *)
Definition b64_value (c : N) : option N :=
  if Utf8.between 65 90 c then Some (c - 65)
  else if Utf8.between 97 122 c then Some (c - 71)
  else if Utf8.between 48 57 c then Some (c + 4)
  else if c =? 43 then Some 62
  else if c =? 47 then Some 63
  else None.

Definition byte_of (n : N) : N := N.land n 255.

(** The loop of [binascii.a2b_base64] in its default, non-strict mode:
    [quad_pos] counts the data characters of the current group of four,
    [leftchar] holds the bits not yet written, [pads] the padding
    characters seen since the last data character. *)
Fixpoint a2b_loop (data : bytes) (quad_pos : nat) (leftchar : N) (pads : nat)
    (out : bytes) : result bytes :=
  match data with
  | [] =>
      match quad_pos with
      | O => Ok out
      | 1%nat =>
          Raise (BinasciiError
            ("Invalid base64-encoded string: number of data characters ("
             ++ decimal (List.length out / 3 * 4 + 1)
             ++ ") cannot be 1 more than a multiple of 4"))
      | _ => Raise (BinasciiError "Incorrect padding")
      end
  | this_ch :: rest =>
      if this_ch =? 61 then
        if (2 <=? quad_pos)%nat then
          if (4 <=? quad_pos + S pads)%nat then Ok out
          else a2b_loop rest quad_pos leftchar (S pads) out
        else a2b_loop rest quad_pos leftchar pads out
      else
        match b64_value this_ch with
        | None => a2b_loop rest quad_pos leftchar pads out
        | Some v =>
            match quad_pos with
            | O => a2b_loop rest 1 v 0 out
            | 1%nat =>
                a2b_loop rest 2 (N.land v 15) 0
                  (out ++ [byte_of (N.lor (N.shiftl leftchar 2) (N.shiftr v 4))])
            | 2%nat =>
                a2b_loop rest 3 (N.land v 3) 0
                  (out ++ [byte_of (N.lor (N.shiftl leftchar 4) (N.shiftr v 2))])
            | _ =>
                a2b_loop rest 0 0 0
                  (out ++ [byte_of (N.lor (N.shiftl leftchar 6) v)])
            end
        end
  end.

Definition a2b_base64 (data : bytes) : result bytes :=
  a2b_loop data 0 0 0 [].

(** [_bytes_from_decode_data]: a [str] argument is encoded as ASCII. *)
Definition bytes_from_decode_data (s : str) : result bytes :=
  if forallb (fun c => c <? 128) s then Ok s
  else Raise (ValueError "string argument should contain only ASCII characters").

(** [_urlsafe_decode_translation]: [-] becomes [+] and [_] becomes [/]. *)
Definition urlsafe_translate (c : N) : N :=
  if c =? 45 then 43 else if c =? 95 then 47 else c.

Definition urlsafe_b64decode (s : str) : result bytes :=
  rbind (bytes_from_decode_data s)
        (fun b => a2b_base64 (map urlsafe_translate b)).

End Base64.

(** ** [json.loads] *)

Module Json.
Import Py.

Definition is_ws (c : N) : bool :=
  (c =? 32) || (c =? 9) || (c =? 10) || (c =? 13).

Fixpoint skip_ws (s : str) : str :=
  match s with
  | c :: r => if is_ws c then skip_ws r else s
  | [] => []
  end.

(** [s.startswith(p)], giving what follows the prefix. *)
Fixpoint strip_prefix (p s : str) : option str :=
  match p, s with
  | [], _ => Some s
  | x :: p', y :: s' => if x =? y then strip_prefix p' s' else None
  | _ :: _, [] => None
  end.

Definition hexval (c : N) : option N :=
  if Utf8.between 48 57 c then Some (c - 48)
  else if Utf8.between 97 102 c then Some (c - 87)
  else if Utf8.between 65 70 c then Some (c - 55)
  else None.

Definition hex4 (a b c d : N) : option N :=
  match hexval a, hexval b, hexval c, hexval d with
  | Some x, Some y, Some z, Some w => Some (((x * 16 + y) * 16 + z) * 16 + w)
  | _, _, _, _ => None
  end.

(** The single-character escapes after a backslash. *)
Definition escape (c : N) : option N :=
  if c =? 34 then Some 34 else if c =? 92 then Some 92
  else if c =? 47 then Some 47 else if c =? 98 then Some 8
  else if c =? 102 then Some 12 else if c =? 110 then Some 10
  else if c =? 114 then Some 13 else if c =? 116 then Some 9
  else None.

Definition is_high_surrogate (c : N) : bool := Utf8.between 55296 56319 c.
Definition is_low_surrogate (c : N) : bool := Utf8.between 56320 57343 c.
Definition is_surrogate (c : N) : bool := Utf8.between 55296 57343 c.

Definition join_surrogates (hi lo : N) : N :=
  65536 + N.lor (N.shiftl (hi - 55296) 10) (lo - 56320).

(** [scanstring] in strict mode, from just after the opening quote; [out]
    collects the characters read so far. *)
Fixpoint scanstring_loop (fuel : nat) (s out : str) : result (str * str) :=
  match fuel with
  | O => OutOfModel
  | S fuel' =>
      match s with
      | [] => Raise (JSONDecodeError "Unterminated string starting at")
      | c :: r =>
          if c =? 34 then Ok (out, r)
          else if negb (c =? 92) then
            if c <=? 31 then Raise (JSONDecodeError "Invalid control character at")
            else scanstring_loop fuel' r (out ++ [c])
          else
            match r with
            | [] => Raise (JSONDecodeError "Unterminated string starting at")
            | e :: r1 =>
                if negb (e =? 117) then
                  match escape e with
                  | Some x => scanstring_loop fuel' r1 (out ++ [x])
                  | None => Raise (JSONDecodeError "Invalid \escape")
                  end
                else
                  match r1 with
                  | h1 :: h2 :: h3 :: h4 :: ((_ :: _) as r2) =>
                      match hex4 h1 h2 h3 h4 with
                      | None => Raise (JSONDecodeError "Invalid \uXXXX escape")
                      | Some v =>
                          match r2 with
                          | b :: u :: g1 :: g2 :: g3 :: g4 :: ((_ :: _) as r3) =>
                              if is_high_surrogate v && (b =? 92) && (u =? 117) then
                                match hex4 g1 g2 g3 g4 with
                                | None => Raise (JSONDecodeError "Invalid \uXXXX escape")
                                | Some v2 =>
                                    if is_low_surrogate v2
                                    then scanstring_loop fuel' r3
                                           (out ++ [join_surrogates v v2])
                                    else scanstring_loop fuel' r2 (out ++ [v])
                                end
                              else scanstring_loop fuel' r2 (out ++ [v])
                          | _ => scanstring_loop fuel' r2 (out ++ [v])
                          end
                      end
                  | _ => Raise (JSONDecodeError "Invalid \uXXXX escape")
                  end
            end
      end
  end.

(** A string holding a lone surrogate is left out of the model: whether it
    can be printed depends on the console. *)
Definition scanstring (s : str) : result (str * str) :=
  rbind (scanstring_loop (S (List.length s)) s [])
        (fun '(chars, rest) =>
           if existsb is_surrogate chars then OutOfModel else Ok (chars, rest)).

Definition is_digit (c : N) : bool := Utf8.between 48 57 c.

Fixpoint take_digits (s : str) : str * str :=
  match s with
  | c :: r =>
      if is_digit c then let '(ds, rest) := take_digits r in (c :: ds, rest)
      else ([], s)
  | [] => ([], [])
  end.

Definition int_of_digits (ds : str) : Z :=
  fold_left (fun acc c => (acc * 10 + Z.of_N (c - 48))%Z) ds 0%Z.

(** The fraction [.digits], if present. *)
Definition skip_frac (s : str) : bool * str :=
  match s with
  | dot :: d :: r =>
      if (dot =? 46) && is_digit d then (true, snd (take_digits (d :: r)))
      else (false, s)
  | _ => (false, s)
  end.

(** The exponent [e], [E] with an optional sign and digits; without a digit
    the scanner backs up to before the [e]. *)
Definition skip_exp (s : str) : bool * str :=
  match s with
  | e :: ((_ :: _) as t) =>
      if (e =? 101) || (e =? 69) then
        let t' := match t with
                  | sg :: ((_ :: _) as t1) =>
                      if (sg =? 45) || (sg =? 43) then t1 else t
                  | _ => t
                  end in
        match take_digits t' with
        | ([], _) => (false, s)
        | (_ :: _, rest) => (true, rest)
        end
      else (false, s)
  | _ => (false, s)
  end.

(** [int(text)] refuses more than 4300 digits. *)
Definition max_str_digits : nat := 4300.

(** [_match_number]: [None] when no number starts here. *)
Definition match_number (s : str) : option (result (value * str)) :=
  let '(neg, s1) := match s with
                    | c :: r => if c =? 45 then (true, r) else (false, s)
                    | [] => (false, s)
                    end in
  let int_part :=
    match s1 with
    | c :: r =>
        if Utf8.between 49 57 c then Some (take_digits s1)
        else if c =? 48 then Some ([48], r)
        else None
    | [] => None
    end in
  match int_part with
  | None => None
  | Some (ds, s2) =>
      let '(has_frac, s3) := skip_frac s2 in
      let '(has_exp, s4) := skip_exp s3 in
      if has_frac || has_exp then
        Some (Ok (VFloat (firstn (List.length s - List.length s4) s), s4))
      else if (max_str_digits <? List.length ds)%nat then
        Some (Raise (ValueError
          "Exceeds the limit (4300 digits) for integer string conversion"))
      else
        let z := int_of_digits ds in
        Some (Ok (VInt (if neg then (- z)%Z else z), s4))
  end.

Section Containers.
(** The scanner for the values nested one level down. *)
Variable scan : str -> result (value * str).

(** The items of an array after the first [skip_ws]. *)
Fixpoint array_loop (fuel : nat) (s : str) (acc : list value)
    : result (value * str) :=
  match fuel with
  | O => OutOfModel
  | S fuel' =>
      rbind (scan s) (fun '(v, s1) =>
        let acc' := acc ++ [v] in
        match skip_ws s1 with
        | c :: r =>
            if c =? 93 then Ok (VList acc', r)
            else if c =? 44 then array_loop fuel' (skip_ws r) acc'
            else Raise (JSONDecodeError "Expecting ',' delimiter")
        | [] => Raise (JSONDecodeError "Expecting ',' delimiter")
        end)
  end.

Definition parse_array (s : str) : result (value * str) :=
  match skip_ws s with
  | c :: r =>
      if c =? 93 then Ok (VList [], r)
      else array_loop (S (List.length s)) (skip_ws s) []
  | [] => array_loop (S (List.length s)) [] []
  end.

Fixpoint object_loop (fuel : nat) (s : str) (acc : list (str * value))
    : result (value * str) :=
  match fuel with
  | O => OutOfModel
  | S fuel' =>
      match s with
      | q :: r0 =>
          if q =? 34 then
            rbind (scanstring r0) (fun '(key, s1) =>
              match skip_ws s1 with
              | colon :: r1 =>
                  if colon =? 58 then
                    rbind (scan (skip_ws r1)) (fun '(v, s2) =>
                      let acc' := dict_set key v acc in
                      match skip_ws s2 with
                      | c :: r =>
                          if c =? 125 then Ok (VDict acc', r)
                          else if c =? 44 then object_loop fuel' (skip_ws r) acc'
                          else Raise (JSONDecodeError "Expecting ',' delimiter")
                      | [] => Raise (JSONDecodeError "Expecting ',' delimiter")
                      end)
                  else Raise (JSONDecodeError "Expecting ':' delimiter")
              | [] => Raise (JSONDecodeError "Expecting ':' delimiter")
              end)
          else Raise (JSONDecodeError
                 "Expecting property name enclosed in double quotes")
      | [] => Raise (JSONDecodeError
                "Expecting property name enclosed in double quotes")
      end
  end.

Definition parse_object (s : str) : result (value * str) :=
  match skip_ws s with
  | c :: r =>
      if c =? 125 then Ok (VDict [], r)
      else object_loop (S (List.length s)) (skip_ws s) []
  | [] => object_loop (S (List.length s)) [] []
  end.
End Containers.

(** The constants and numbers of [scan_once]. *)
Definition scan_atom (s : str) : result (value * str) :=
  match strip_prefix (lit "null") s with
  | Some r => Ok (VNone, r)
  | None =>
  match strip_prefix (lit "true") s with
  | Some r => Ok (VBool true, r)
  | None =>
  match strip_prefix (lit "false") s with
  | Some r => Ok (VBool false, r)
  | None =>
  match strip_prefix (lit "NaN") s with
  | Some r => Ok (VFloat (lit "NaN"), r)
  | None =>
  match strip_prefix (lit "Infinity") s with
  | Some r => Ok (VFloat (lit "Infinity"), r)
  | None =>
  match strip_prefix (lit "-Infinity") s with
  | Some r => Ok (VFloat (lit "-Infinity"), r)
  | None =>
  match match_number s with
  | Some res => res
  | None => Raise (JSONDecodeError "Expecting value")
  end end end end end end end.

(** [scan_once]; [depth] bounds the nesting of arrays and objects, beyond
    which the interpreter's recursion limit would come into play. *)
Fixpoint scan_once (depth : nat) (s : str) : result (value * str) :=
  match s with
  | [] => Raise (JSONDecodeError "Expecting value")
  | c :: r =>
      if c =? 34 then
        rbind (scanstring r) (fun '(chars, rest) => Ok (VStr chars, rest))
      else if c =? 123 then
        match depth with
        | O => OutOfModel
        | S d => parse_object (scan_once d) r
        end
      else if c =? 91 then
        match depth with
        | O => OutOfModel
        | S d => parse_array (scan_once d) r
        end
      else scan_atom s
  end.

Definition max_depth : nat := 100.

(** [json.loads(s)] for a [str] argument. *)
Definition loads (s : str) : result value :=
  match s with
  | 65279 :: _ =>
      Raise (JSONDecodeError "Unexpected UTF-8 BOM (decode using utf-8-sig)")
  | _ =>
      rbind (scan_once max_depth (skip_ws s)) (fun '(v, rest) =>
        match skip_ws rest with
        | [] => Ok v
        | _ :: _ => Raise (JSONDecodeError "Extra data")
        end)
  end.

End Json.

(** ** [urllib.parse]: [urlparse(...).query] and [parse_qs] *)

Module Urllib.
Import Py.

(** [s.split(sep, 1)] when [sep] occurs in [s]. *)
Fixpoint split_once (sep : N) (s : str) : option (str * str) :=
  match s with
  | [] => None
  | c :: r =>
      if c =? sep then Some ([], r)
      else match split_once sep r with
           | Some (a, b) => Some (c :: a, b)
           | None => None
           end
  end.

(** [s.split(sep)] *)
Fixpoint split (sep : N) (s : str) : list str :=
  match s with
  | [] => [[]]
  | c :: r =>
      if c =? sep then [] :: split sep r
      else match split sep r with
           | h :: t => (c :: h) :: t
           | [] => [[c]]
           end
  end.

(** [url.lstrip(_WHATWG_C0_CONTROL_OR_SPACE)] *)
Fixpoint lstrip_c0 (s : str) : str :=
  match s with
  | c :: r => if c <=? 32 then lstrip_c0 r else s
  | [] => []
  end.

(** Removal of [_UNSAFE_URL_BYTES_TO_REMOVE]: tab, carriage return, newline. *)
Definition remove_unsafe (s : str) : str :=
  filter (fun c => negb ((c =? 9) || (c =? 13) || (c =? 10))) s.

Definition is_alpha (c : N) : bool :=
  Utf8.between 65 90 c || Utf8.between 97 122 c.

Definition is_scheme_char (c : N) : bool :=
  is_alpha c || Utf8.between 48 57 c || (c =? 43) || (c =? 45) || (c =? 46).

(** What is left of the URL once a leading [scheme:] is taken off. *)
Definition strip_scheme (url : str) : str :=
  match split_once 58 url with
  | Some (c :: pre, post) =>
      if is_alpha c && forallb is_scheme_char (c :: pre) then post else url
  | _ => url
  end.

(** [_splitnetloc(url, 2)], on the text after the two slashes: the network
    location ends at the first [/], [?] or [#]. *)
Fixpoint splitnetloc (s : str) : str * str :=
  match s with
  | [] => ([], [])
  | c :: r =>
      if (c =? 47) || (c =? 63) || (c =? 35) then ([], s)
      else let '(n, rest) := splitnetloc r in (c :: n, rest)
  end.

Definition mem (c : N) (s : str) : bool := existsb (N.eqb c) s.

(** The [query] attribute of [urlparse(url)]. A network location with both
    brackets, or with a character outside ASCII, is validated by code that
    is not modelled. *)
Definition urlparse_query (url : str) : result str :=
  let url := remove_unsafe (lstrip_c0 url) in
  let url := strip_scheme url in
  let '(netloc, url) :=
    match url with
    | 47 :: 47 :: rest => splitnetloc rest
    | _ => ([], url)
    end in
  if xorb (mem 91 netloc) (mem 93 netloc) then Raise (ValueError "Invalid IPv6 URL")
  else if mem 91 netloc && mem 93 netloc then OutOfModel
  else
    let url := match split_once 35 url with
               | Some (before, _) => before
               | None => url
               end in
    let query := match split_once 63 url with
                 | Some (_, q) => q
                 | None => []
                 end in
    if forallb (fun c => c <? 128) netloc then Ok query else OutOfModel.

(** [unquote_to_bytes] on a run of ASCII characters: [%xx] with two
    hexadecimal digits becomes one byte, anything else stays. *)
Fixpoint unquote_to_bytes (run : str) : bytes :=
  match run with
  | [] => []
  | c :: r =>
      if c =? 37 then
        match r with
        | h1 :: h2 :: r' =>
            match Json.hexval h1, Json.hexval h2 with
            | Some a, Some b => (a * 16 + b) :: unquote_to_bytes r'
            | _, _ => c :: unquote_to_bytes r
            end
        | _ => c :: unquote_to_bytes r
        end
      else c :: unquote_to_bytes r
  end.

Definition unquote_run (run : str) : str :=
  Utf8.decode_replace (unquote_to_bytes run).

(** [unquote(s)] with the defaults [encoding='utf-8', errors='replace']:
    each maximal run of ASCII characters is unquoted to bytes and decoded,
    the characters between the runs are kept. [run] is the run being read. *)
Fixpoint unquote_acc (s run : str) : str :=
  match s with
  | [] => unquote_run run
  | c :: r =>
      if c <? 128 then unquote_acc r (run ++ [c])
      else unquote_run run ++ c :: unquote_acc r []
  end.

Definition unquote (s : str) : str := unquote_acc s [].

(** [s.replace('+', ' ')] *)
Definition plus_to_space (s : str) : str :=
  map (fun c => if c =? 43 then 32 else c) s.

(** One field of the query in [parse_qsl] with [keep_blank_values=False],
    [strict_parsing=False]: nothing for an empty field, for a field
    without [=] and for a field whose value is blank. *)
Definition parse_field (name_value : str) : list (str * str) :=
  match name_value with
  | [] => []
  | _ :: _ =>
      match split_once 61 name_value with
      | None => []
      | Some (name, value) =>
          match value with
          | [] => []
          | _ :: _ => [(unquote (plus_to_space name), unquote (plus_to_space value))]
          end
      end
  end.

Definition parse_qsl (qs : str) : list (str * str) :=
  match qs with
  | [] => []
  | _ :: _ => flat_map parse_field (split 38 qs)
  end.

(** The loop of [parse_qs]: append to the list of a name already present,
    start a new list otherwise. *)
Definition add_pair (parsed_result : list (str * list str)) (pair : str * str)
    : list (str * list str) :=
  let '(name, value) := pair in
  match dict_find name parsed_result with
  | Some values => dict_set name (values ++ [value]) parsed_result
  | None => dict_set name [value] parsed_result
  end.

Definition parse_qs (qs : str) : list (str * list str) :=
  fold_left add_pair (parse_qsl qs) [].

End Urllib.

(** ** The request handler *)

Module Handler.
Import Py.

(** A piece of an f-string: literal text, or a value formatted in place. *)
Inductive frag : Type :=
| Lit (text : string)
| Fmt (v : value)
| FmtExn (e : exn).

(** What the handler does to the outside: a line on the console, and the
    call of the inherited [SimpleHTTPRequestHandler.do_GET] on the same
    request, which writes the HTTP response. *)
Inductive effect : Type :=
| Print (line : list frag)
| SuperDoGET (path : str).

(** A computation: the effects it performed, and how it ended. *)
Definition M (A : Type) : Type := list effect * result A.

Definition ret {A} (a : A) : M A := ([], Ok a).

Definition bind {A B} (m : M A) (k : A -> M B) : M B :=
  match m with
  | (t, Ok a) => let '(t', r) := k a in (t ++ t', r)
  | (t, Raise e) => (t, Raise e)
  | (t, OutOfModel) => (t, OutOfModel)
  end.

Definition lift {A} (r : result A) : M A := ([], r).

Definition print (line : list frag) : M unit := ([Print line], Ok tt).

(** [try: body except Exception as e: handler(e)] *)
Definition try_except {A} (body : M A) (handler : exn -> M A) : M A :=
  match body with
  | (t, Raise e) => let '(t', r) := handler e in (t ++ t', r)
  | other => other
  end.

Declare Scope handler_scope.
Delimit Scope handler_scope with handler.
Notation "x <- m ;; k" := (bind m (fun x => k))
  (at level 61, m at next level, right associativity) : handler_scope.
Notation "m ;; k" := (bind m (fun _ => k))
  (at level 61, right associativity) : handler_scope.
Local Open Scope handler_scope.
Local Open Scope string_scope.

Definition newline : string := String (ascii_of_nat 10) EmptyString.

(** [event_data]: the first value of [event], or [None]. *)
Definition event_first (query_params : list (str * list str)) : result (option str) :=
  match dict_find (lit "event") query_params with
  | Some values => rbind (index0 values) (fun v => Ok (Some v))
  | None => Ok None
  end.

(** Truth value of [event_data]: false for [None] and for the empty string. *)
Definition truthy (event_data : option str) : bool :=
  match event_data with
  | Some (_ :: _) => true
  | _ => false
  end.

(** [event_data] where it is known to be a [str]. *)
Definition the_str (event_data : option str) : str :=
  match event_data with
  | Some s => s
  | None => []
  end.

(** ['...' if n > limit else ''] *)
Definition ellipsis_if_longer (limit n : nat) : value :=
  VStr (lit (if (limit <? n)%nat then "..." else "")).

(** [event_data + '=' * (4 - len(event_data) % 4)] *)
Definition pad_count (event_data : str) : nat :=
  (4 - List.length event_data mod 4)%nat.

Definition padded (event_data : str) : str :=
  (event_data ++ repeat 61 (pad_count event_data))%list.

(** The three decoding steps of the [try] block. *)
Definition decode_event (event_data : str) : result value :=
  rbind (Base64.urlsafe_b64decode (padded event_data)) (fun decoded_bytes =>
  rbind (Utf8.decode decoded_bytes) (fun event_json =>
  Json.loads event_json)).

(** The four lines printed about a decoded event. *)
Definition print_event (event : value) : M unit :=
  print [Lit "✅ Event decoded successfully:"];;
  kind <- lift (get event (lit "kind") (VStr (lit "unknown")));;
  print [Lit "   Kind: "; Fmt kind];;
  pubkey <- lift (get event (lit "pubkey") (VStr (lit "unknown")));;
  author <- lift (slice_to 16 pubkey);;
  print [Lit "   Author: "; Fmt author; Lit "..."];;
  content <- lift (get event (lit "content") (VStr []));;
  preview <- lift (slice_to 100 content);;
  content' <- lift (get event (lit "content") (VStr []));;
  n <- lift (len content');;
  print [Lit "   Content: "; Fmt preview; Fmt (ellipsis_if_longer 100 n)];;
  created <- lift (get event (lit "created_at") (VStr (lit "unknown")));;
  print [Lit "   Created: "; Fmt created].

(** The [try] statement: decode, print the event, and turn any exception
    into one more printed line. *)
Definition decode_and_log (event_data : str) : M unit :=
  try_except
    (event <- lift (decode_event event_data);; print_event event)
    (fun e => print [Lit "❌ Error decoding event: "; FmtExn e]).

(** The body of [if 'id' in query_params:]. *)
Definition log_event (query_params : list (str * list str)) (values : list str)
    : M unit :=
  event_id <- lift (index0 values);;
  event_data <- lift (event_first query_params);;
  print [Lit "🎯 Event ID: "; Fmt (VStr event_id)];;
  let data := the_str event_data in
  (if truthy event_data then
     print [Lit "📦 Event Data: "; Fmt (VStr (firstn 50 data));
            Fmt (ellipsis_if_longer 50 (List.length data))];;
     print [Lit "📏 Event Data Size: "; Fmt (VInt (Z.of_nat (List.length data)));
            Lit " characters"]
   else
     print [Lit "ℹ️  Event data not included (likely > 500KB)"]);;
  if truthy event_data then decode_and_log data else ret tt.

(** [PubSubDemoHandler.do_GET], for the request whose target is [path]. *)
Definition do_GET (path : str) : M unit :=
  query <- lift (Urllib.urlparse_query path);;
  let query_params := Urllib.parse_qs query in
  print [Lit (newline ++ "📨 Request: "); Fmt (VStr path)];;
  match dict_find (lit "id") query_params with
  | Some values => log_event query_params values
  | None => ret tt
  end;;
  ([SuperDoGET path], Ok tt).

End Handler.

(** ** The entry point *)

Module Main.
Import Py Handler.
Local Open Scope string_scope.

(** What [main] does to the outside. [Listen] is the construction of the
    [TCPServer] (bind and listen), [ServerClose] the end of the [with]
    block. *)
Inductive effect : Type :=
| Chdir (dir : str)
| Say (line : list frag)
| Listen (host : str) (port : Z)
| ServeForever
| ServerClose.

(** What can cut a call short: an operating-system error, the interrupt
    from the keyboard, or any other exception. *)
Inductive failure : Type :=
| OSError (msg : string)
| KeyboardInterrupt
| OtherException (e : exn).

(** How the outside answers: whether [os.chdir] and the construction of the
    server fail, and how [serve_forever] ends ([None]: it returns). *)
Record world : Type := {
  chdir_result : option failure;
  bind_result : option failure;
  serve_result : option failure
}.

(** How the process ends. *)
Inductive ending : Type :=
| Exits (status : Z)
| Propagates (f : failure)
| Returns.

Definition PORT : Z := 8000.

(** [main()], for the directory [demo_dir] that holds the script. *)
Definition main (demo_dir : str) (w : world) : list effect * ending :=
  match chdir_result w with
  | Some f => ([Chdir demo_dir], Propagates f)
  | None =>
      let banner :=
        [Chdir demo_dir;
         Say [Lit "🚀 Starting PubSub Demo PWA Server"];
         Say [Lit "📂 Serving from: "; Fmt (VStr demo_dir)];
         Say [Lit "🌐 URL: http://localhost:"; Fmt (VInt PORT)];
         Say [Lit "📱 Use this URL as your target URI in the PWA"];
         Say [Fmt (VStr (repeat 61%N 50))];
         Listen [] PORT] in
      match bind_result w with
      | Some f => (banner, Propagates f)
      | None =>
          match serve_result w with
          | Some KeyboardInterrupt =>
              ((banner ++
                [ServeForever;
                 Say [Lit (newline ++ newline ++ "🛑 Server stopped")];
                 ServerClose])%list,
               Exits 0)
          | Some f => ((banner ++ [ServeForever; ServerClose])%list, Propagates f)
          | None => ((banner ++ [ServeForever; ServerClose])%list, Returns)
          end
      end
  end.

End Main.

(** * Properties *)

Import Py Handler.
Local Open Scope handler_scope.
Local Open Scope string_scope.

(** [P] holds of every value stored in the dict. *)
Definition all_values {V : Type} (P : V -> Prop) (d : list (str * V)) : Prop :=
  Forall (fun kv => P (snd kv)) d.

(** A well-formed list of query values: not empty, and no value blank. *)
Definition values_ok (values : list str) : Prop :=
  values <> [] /\ Forall (fun v => v <> []) values.

(** A character that the base64 decoder counts as data once the URL-safe
    translation is done: a letter, a digit, [-], [_], [+] or [/]. *)
Definition is_data_char (c : N) : bool :=
  match Base64.b64_value (Base64.urlsafe_translate c) with
  | Some _ => true
  | None => false
  end.

(** The error of the decoder for a count of data characters that is one
    more than a multiple of four. *)
Definition invalid_length (n : nat) : exn :=
  BinasciiError
    ("Invalid base64-encoded string: number of data characters ("
     ++ Base64.decimal n ++ ") cannot be 1 more than a multiple of 4").

(** The exceptions of the three decoding steps. *)
Definition is_decode_error (e : exn) : Prop :=
  match e with
  | ValueError _ | BinasciiError _ | UnicodeDecodeError _ | JSONDecodeError _ => True
  | AttributeError _ | TypeError _ | IndexError _ => False
  end.

(** None of the characters [chars] occurs in [s]. *)
Definition none_of (chars s : str) : Prop :=
  forall c, In c chars -> ~ In c s.

Definition is_print (e : effect) : Prop :=
  match e with
  | Print _ => True
  | SuperDoGET _ => False
  end.

(** ** The monad *)

Lemma bind_ok {A B} (t : list effect) (a : A) (k : A -> M B) :
  bind (t, Ok a) k = ((t ++ fst (k a))%list, snd (k a)).
Proof. unfold bind. destruct (k a); reflexivity. Qed.

Lemma bind_lift_ok {A B} (r : result A) (a : A) (k : A -> M B) :
  r = Ok a -> bind (lift r) k = k a.
Proof. intros ->. unfold lift. rewrite bind_ok. destruct (k a); reflexivity. Qed.

Lemma bind_lift_raise {A B} (r : result A) (e : exn) (k : A -> M B) :
  r = Raise e -> bind (lift r) k = ([], Raise e).
Proof. intros ->. reflexivity. Qed.

Lemma bind_print {B} (line : list frag) (k : unit -> M B) :
  bind (print line) k = (Print line :: fst (k tt), snd (k tt)).
Proof. unfold print. rewrite bind_ok. reflexivity. Qed.

Lemma try_except_prefix {A} (body : M A) (handler : exn -> M A) :
  exists t, fst (try_except body handler) = (fst body ++ t)%list.
Proof.
  destruct body as [t [a | e | ]]; simpl.
  - exists []. now rewrite app_nil_r.
  - destruct (handler e) as [t' r]. exists t'. reflexivity.
  - exists []. now rewrite app_nil_r.
Qed.

(** ** Dictionaries built by [parse_qs] *)

Section DictInvariant.
Context {V : Type} (P : V -> Prop).

Lemma dict_set_all_values key v d :
  P v -> all_values P d -> all_values P (dict_set key v d).
Proof.
  intros Hv Hd. induction Hd as [| [k w] rest Hw Hrest IH]; simpl.
  - constructor; [exact Hv | constructor].
  - destruct (str_eqb k key); constructor; auto.
Qed.

Lemma dict_find_all_values key v d :
  all_values P d -> dict_find key d = Some v -> P v.
Proof.
  intros Hd. induction Hd as [| [k w] rest Hw Hrest IH]; simpl.
  - discriminate.
  - destruct (str_eqb k key); [intros [= <-]; exact Hw | exact IH].
Qed.
End DictInvariant.

(** Unquoting never turns a non-empty text into the empty one. *)
Lemma unquote_to_bytes_nonempty c r : Urllib.unquote_to_bytes (c :: r) <> [].
Proof.
  simpl. destruct (c =? 37)%N; [| discriminate].
  destruct r as [| h1 [| h2 r']]; try discriminate.
  destruct (Json.hexval h1), (Json.hexval h2); discriminate.
Qed.

Lemma decode_replace_nonempty bs : bs <> [] -> Utf8.decode_replace bs <> [].
Proof.
  destruct bs as [| b0 r]; [congruence |]. intros _.
  unfold Utf8.decode_replace. simpl.
  destruct (Utf8.decode1 b0 r); discriminate.
Qed.

Lemma unquote_run_nonempty run : run <> [] -> Urllib.unquote_run run <> [].
Proof.
  destruct run as [| c r]; [congruence |]. intros _.
  apply decode_replace_nonempty, unquote_to_bytes_nonempty.
Qed.

Lemma unquote_acc_nonempty s run :
  s <> [] \/ run <> [] -> Urllib.unquote_acc s run <> [].
Proof.
  revert run. induction s as [| c r IH]; intros run H; simpl.
  - destruct H as [H | H]; [congruence | now apply unquote_run_nonempty].
  - destruct (c <? 128)%N.
    + apply IH. right. destruct run; discriminate.
    + destruct (Urllib.unquote_run run); discriminate.
Qed.

Lemma unquote_nonempty s : s <> [] -> Urllib.unquote s <> [].
Proof. intros H. apply unquote_acc_nonempty. now left. Qed.

Lemma parse_field_values name_value :
  Forall (fun nv => snd nv <> []) (Urllib.parse_field name_value).
Proof.
  unfold Urllib.parse_field. destruct name_value as [| c r]; [constructor |].
  destruct (Urllib.split_once 61 (c :: r)) as [[name value] |]; [| constructor].
  destruct value as [| v vs]; constructor; [| constructor].
  simpl. apply unquote_nonempty. discriminate.
Qed.

Lemma parse_qsl_values qs :
  Forall (fun nv => snd nv <> []) (Urllib.parse_qsl qs).
Proof.
  unfold Urllib.parse_qsl. destruct qs as [| c r]; [constructor |].
  induction (Urllib.split 38 (c :: r)) as [| f fs IH]; simpl.
  - constructor.
  - apply Forall_app. split; [apply parse_field_values | exact IH].
Qed.

Lemma add_pair_values_ok d pair :
  snd pair <> [] -> all_values values_ok d ->
  all_values values_ok (Urllib.add_pair d pair).
Proof.
  destruct pair as [name value]. simpl. intros Hv Hd.
  destruct (dict_find name d) as [values |] eqn:E.
  - apply dict_set_all_values; [| exact Hd].
    destruct (dict_find_all_values values_ok name values d Hd E) as [_ Hall].
    split; [destruct values; discriminate |].
    apply Forall_app. split; [exact Hall | constructor; [exact Hv | constructor]].
  - apply dict_set_all_values; [| exact Hd].
    split; [discriminate | constructor; [exact Hv | constructor]].
Qed.

Lemma parse_qs_values_ok qs : all_values values_ok (Urllib.parse_qs qs).
Proof.
  unfold Urllib.parse_qs.
  assert (H : all_values values_ok (@nil (str * list str))) by constructor.
  revert H. generalize (@nil (str * list str)).
  induction (parse_qsl_values qs) as [| pair pairs Hp _ IH]; intros d Hd; simpl.
  - exact Hd.
  - apply IH. now apply add_pair_values_ok.
Qed.

Lemma parse_qs_find qs key values :
  dict_find key (Urllib.parse_qs qs) = Some values ->
  exists v vs, values = v :: vs /\ v <> [].
Proof.
  intros H.
  destruct (dict_find_all_values values_ok key values _ (parse_qs_values_ok qs) H)
    as [Hne Hall].
  destruct values as [| v vs]; [congruence |].
  exists v, vs. split; [reflexivity | now inversion Hall].
Qed.

(** ** The shape of a run of the handler *)

Lemma try_except_print_no_raise {A} (body : M A) (h : exn -> list frag) (k : exn -> A) e :
  snd (try_except body (fun x => ([Print (h x)], Ok (k x)))) <> Raise e.
Proof. destruct body as [t [a | e' | ]]; simpl; discriminate. Qed.

Lemma decode_and_log_no_raise data e : snd (decode_and_log data) <> Raise e.
Proof.
  unfold decode_and_log, print.
  apply (try_except_print_no_raise _
           (fun x => [Lit "❌ Error decoding event: "; FmtExn x]) (fun _ => tt)).
Qed.

Lemma decode_and_log_raise data e :
  decode_event data = Raise e ->
  decode_and_log data = ([Print [Lit "❌ Error decoding event: "; FmtExn e]], Ok tt).
Proof.
  intros H. unfold decode_and_log.
  rewrite (bind_lift_raise _ e _ H). reflexivity.
Qed.

Lemma decode_and_log_ok data event :
  decode_event data = Ok event ->
  decode_and_log data =
  try_except (print_event event)
    (fun e => print [Lit "❌ Error decoding event: "; FmtExn e]).
Proof.
  intros H. unfold decode_and_log. now rewrite (bind_lift_ok _ event _ H).
Qed.

(** Without [id] in the query: the request line, then the inherited handler. *)
Lemma do_GET_without_id path query :
  Urllib.urlparse_query path = Ok query ->
  dict_find (lit "id") (Urllib.parse_qs query) = None ->
  do_GET path =
  ([Print [Lit (newline ++ "📨 Request: "); Fmt (VStr path)]; SuperDoGET path], Ok tt).
Proof.
  intros Hq Hid. unfold do_GET.
  rewrite (bind_lift_ok _ query _ Hq), bind_print, Hid. reflexivity.
Qed.

(** With [id] but without [event]. *)
Lemma do_GET_without_event path query event_id ids :
  Urllib.urlparse_query path = Ok query ->
  dict_find (lit "id") (Urllib.parse_qs query) = Some (event_id :: ids) ->
  dict_find (lit "event") (Urllib.parse_qs query) = None ->
  do_GET path =
  ([Print [Lit (newline ++ "📨 Request: "); Fmt (VStr path)];
    Print [Lit "🎯 Event ID: "; Fmt (VStr event_id)];
    Print [Lit "ℹ️  Event data not included (likely > 500KB)"];
    SuperDoGET path], Ok tt).
Proof.
  intros Hq Hid Hev. unfold do_GET.
  rewrite (bind_lift_ok _ query _ Hq), bind_print, Hid.
  unfold log_event, event_first. rewrite Hev. reflexivity.
Qed.

(** With [id] and a non-empty first [event] value: four lines, the [try]
    statement, then the inherited handler unless the model gave up. *)
Lemma do_GET_with_event path query event_id ids c data events :
  Urllib.urlparse_query path = Ok query ->
  dict_find (lit "id") (Urllib.parse_qs query) = Some (event_id :: ids) ->
  dict_find (lit "event") (Urllib.parse_qs query) = Some ((c :: data) :: events) ->
  do_GET path =
  bind
    ([Print [Lit (newline ++ "📨 Request: "); Fmt (VStr path)];
      Print [Lit "🎯 Event ID: "; Fmt (VStr event_id)];
      Print [Lit "📦 Event Data: "; Fmt (VStr (firstn 50 (c :: data)));
             Fmt (VStr (lit (if (50 <? List.length (c :: data))%nat then "..." else "")))];
      Print [Lit "📏 Event Data Size: ";
             Fmt (VInt (Z.of_nat (List.length (c :: data)))); Lit " characters"]],
     Ok tt)
    (fun _ => decode_and_log (c :: data);; ([SuperDoGET path], Ok tt)).
Proof.
  intros Hq Hid Hev. unfold do_GET.
  rewrite (bind_lift_ok _ query _ Hq), bind_print, Hid.
  unfold log_event, event_first. rewrite Hev.
  cbn [index0 rbind lift bind truthy the_str].
  unfold ellipsis_if_longer.
  destruct (decode_and_log (c :: data)) as [t [[] | e | ]]; reflexivity.
Qed.

(** ** The preview of the raw event value *)

(** C6. When the query has [id] and a non-empty first [event] value, the
    handler prints, after the request and the identifier, the first 50
    characters of the value, followed by the ellipsis exactly when the value
    has more than 50 characters, and then the length of the whole value. *)
Theorem event_data_preview_and_size path query event_id ids data events :
  Urllib.urlparse_query path = Ok query ->
  dict_find (lit "id") (Urllib.parse_qs query) = Some (event_id :: ids) ->
  dict_find (lit "event") (Urllib.parse_qs query) = Some (data :: events) ->
  data <> [] ->
  exists rest,
    fst (do_GET path) =
    Print [Lit (newline ++ "📨 Request: "); Fmt (VStr path)]
    :: Print [Lit "🎯 Event ID: "; Fmt (VStr event_id)]
    :: Print [Lit "📦 Event Data: "; Fmt (VStr (firstn 50 data));
              Fmt (VStr (lit (if (50 <? List.length data)%nat then "..." else "")))]
    :: Print [Lit "📏 Event Data Size: "; Fmt (VInt (Z.of_nat (List.length data)));
              Lit " characters"]
    :: rest.
Proof.
  intros Hq Hid Hev Hne. destruct data as [| c data]; [congruence |].
  rewrite (do_GET_with_event _ _ _ _ _ _ _ Hq Hid Hev), bind_ok.
  eexists. reflexivity.
Qed.

Lemma event_data_preview_and_size_witness :
  exists rest,
    fst (do_GET (lit "/app.js?id=7&event=e30")) =
    Print [Lit (newline ++ "📨 Request: "); Fmt (VStr (lit "/app.js?id=7&event=e30"))]
    :: Print [Lit "🎯 Event ID: "; Fmt (VStr (lit "7"))]
    :: Print [Lit "📦 Event Data: "; Fmt (VStr (lit "e30")); Fmt (VStr [])]
    :: Print [Lit "📏 Event Data Size: "; Fmt (VInt 3); Lit " characters"]
    :: rest.
Proof.
  apply (event_data_preview_and_size (lit "/app.js?id=7&event=e30")
           (lit "id=7&event=e30") (lit "7") [] (lit "e30") []);
    [reflexivity | reflexivity | reflexivity | discriminate].
Defined.

(** ** The advisory note *)

(** C9. In the branch taken when the query has [id]: if [event] is absent,
    or its first value is empty, the handler prints the identifier and the
    note about the omitted payload and nothing else; no decoding is
    attempted, and no size is measured or checked. *)
Theorem missing_event_prints_only_the_note
    (query_params : list (str * list str)) (event_id : str) (ids : list str) :
  (dict_find (lit "event") query_params = None \/
   exists events, dict_find (lit "event") query_params = Some ([] :: events)) ->
  log_event query_params (event_id :: ids) =
  ([Print [Lit "🎯 Event ID: "; Fmt (VStr event_id)];
    Print [Lit "ℹ️  Event data not included (likely > 500KB)"]], Ok tt).
Proof.
  intros [H | [events H]]; unfold log_event, event_first; rewrite H; reflexivity.
Qed.

Lemma missing_event_prints_only_the_note_witness :
  log_event (Urllib.parse_qs (lit "id=42")) [lit "42"] =
  ([Print [Lit "🎯 Event ID: "; Fmt (VStr (lit "42"))];
    Print [Lit "ℹ️  Event data not included (likely > 500KB)"]], Ok tt).
Proof.
  apply (missing_event_prints_only_the_note (Urllib.parse_qs (lit "id=42")) (lit "42") []).
  left. reflexivity.
Defined.

(** ** The lines printed about a decoded event *)

Lemma print_event_upto_author d author :
  slice_to 16 (dict_get (lit "pubkey") (VStr (lit "unknown")) d) = Ok author ->
  exists rest,
    fst (print_event (VDict d)) =
    Print [Lit "✅ Event decoded successfully:"]
    :: Print [Lit "   Kind: "; Fmt (dict_get (lit "kind") (VStr (lit "unknown")) d)]
    :: Print [Lit "   Author: "; Fmt author; Lit "..."]
    :: rest.
Proof.
  intros Ha. unfold print_event, get.
  rewrite bind_print. cbn [fst].
  rewrite (bind_lift_ok _ _ _ eq_refl), bind_print. cbn [fst].
  rewrite (bind_lift_ok _ _ _ eq_refl), (bind_lift_ok _ _ _ Ha), bind_print.
  eexists. reflexivity.
Qed.

Lemma print_event_lines d author preview n :
  slice_to 16 (dict_get (lit "pubkey") (VStr (lit "unknown")) d) = Ok author ->
  slice_to 100 (dict_get (lit "content") (VStr []) d) = Ok preview ->
  len (dict_get (lit "content") (VStr []) d) = Ok n ->
  print_event (VDict d) =
  ([Print [Lit "✅ Event decoded successfully:"];
    Print [Lit "   Kind: "; Fmt (dict_get (lit "kind") (VStr (lit "unknown")) d)];
    Print [Lit "   Author: "; Fmt author; Lit "..."];
    Print [Lit "   Content: "; Fmt preview; Fmt (ellipsis_if_longer 100 n)];
    Print [Lit "   Created: ";
           Fmt (dict_get (lit "created_at") (VStr (lit "unknown")) d)]], Ok tt).
Proof.
  intros Ha Hp Hn. unfold print_event, get.
  rewrite bind_print.
  rewrite (bind_lift_ok _ _ _ eq_refl), bind_print.
  rewrite (bind_lift_ok _ _ _ eq_refl), (bind_lift_ok _ _ _ Ha), bind_print.
  rewrite (bind_lift_ok _ _ _ eq_refl), (bind_lift_ok _ _ _ Hp).
  rewrite (bind_lift_ok _ _ _ eq_refl), (bind_lift_ok _ _ _ Hn), bind_print.
  rewrite (bind_lift_ok _ _ _ eq_refl). reflexivity.
Qed.

(** A field that is absent or a string can be sliced and measured. *)
Lemma slice_absent_or_str key default n d :
  (dict_find key d = None \/ exists s, dict_find key d = Some (VStr s)) ->
  slice_to n (dict_get key (VStr default) d) =
  Ok (VStr (firstn n (match dict_find key d with
                      | Some (VStr s) => s
                      | _ => default
                      end))).
Proof.
  unfold dict_get. intros [H | [s H]]; rewrite H; reflexivity.
Qed.

(** ** Decode failures *)

(** C2. Whatever the stage at which decoding the event value fails (the
    base64 text, the UTF-8 bytes, or the JSON text), the handler prints the
    failure notice with the exception, ends normally, and the inherited
    handler serves the request. *)
Theorem decode_failure_is_logged_and_served path query event_id ids data events e :
  Urllib.urlparse_query path = Ok query ->
  dict_find (lit "id") (Urllib.parse_qs query) = Some (event_id :: ids) ->
  dict_find (lit "event") (Urllib.parse_qs query) = Some (data :: events) ->
  data <> [] ->
  (Base64.urlsafe_b64decode (padded data) = Raise e \/
   (exists decoded_bytes,
      Base64.urlsafe_b64decode (padded data) = Ok decoded_bytes /\
      Utf8.decode decoded_bytes = Raise e) \/
   (exists decoded_bytes event_json,
      Base64.urlsafe_b64decode (padded data) = Ok decoded_bytes /\
      Utf8.decode decoded_bytes = Ok event_json /\
      Json.loads event_json = Raise e)) ->
  do_GET path =
  ([Print [Lit (newline ++ "📨 Request: "); Fmt (VStr path)];
    Print [Lit "🎯 Event ID: "; Fmt (VStr event_id)];
    Print [Lit "📦 Event Data: "; Fmt (VStr (firstn 50 data));
           Fmt (VStr (lit (if (50 <? List.length data)%nat then "..." else "")))];
    Print [Lit "📏 Event Data Size: "; Fmt (VInt (Z.of_nat (List.length data)));
           Lit " characters"];
    Print [Lit "❌ Error decoding event: "; FmtExn e];
    SuperDoGET path], Ok tt).
Proof.
  intros Hq Hid Hev Hne Hfail. destruct data as [| c data]; [congruence |].
  assert (Hdec : decode_event (c :: data) = Raise e).
  { unfold decode_event.
    destruct Hfail as [H | [(bs & H1 & H2) | (bs & text & H1 & H2 & H3)]].
    - now rewrite H.
    - rewrite H1. simpl. now rewrite H2.
    - rewrite H1. simpl. rewrite H2. simpl. exact H3. }
  rewrite (do_GET_with_event _ _ _ _ _ _ _ Hq Hid Hev).
  rewrite (decode_and_log_raise _ _ Hdec). reflexivity.
Qed.

Lemma decode_failure_is_logged_and_served_witness :
  do_GET (lit "/?id=1&event=ew") =
  ([Print [Lit (newline ++ "📨 Request: "); Fmt (VStr (lit "/?id=1&event=ew"))];
    Print [Lit "🎯 Event ID: "; Fmt (VStr (lit "1"))];
    Print [Lit "📦 Event Data: "; Fmt (VStr (lit "ew")); Fmt (VStr [])];
    Print [Lit "📏 Event Data Size: "; Fmt (VInt 2); Lit " characters"];
    Print [Lit "❌ Error decoding event: ";
           FmtExn (JSONDecodeError "Expecting property name enclosed in double quotes")];
    SuperDoGET (lit "/?id=1&event=ew")], Ok tt).
Proof.
  apply (decode_failure_is_logged_and_served (lit "/?id=1&event=ew")
           (lit "id=1&event=ew") (lit "1") [] (lit "ew") []);
    [reflexivity | reflexivity | reflexivity | discriminate |].
  right. right. exists (lit "{"), (lit "{"). repeat split; reflexivity.
Defined.

(** ** The author line *)

(** C4. After a successful decode to an object, the third line printed by
    the [try] statement is the author line: the first 16 characters of
    [pubkey] followed by the ellipsis marker; when [pubkey] is absent the
    word unknown stands in for those characters. *)
Theorem author_line_shows_pubkey_prefix data d :
  decode_event data = Ok (VDict d) ->
  (forall p, dict_find (lit "pubkey") d = Some (VStr p) ->
     nth_error (fst (decode_and_log data)) 2 =
     Some (Print [Lit "   Author: "; Fmt (VStr (firstn 16 p)); Lit "..."])) /\
  (dict_find (lit "pubkey") d = None ->
     nth_error (fst (decode_and_log data)) 2 =
     Some (Print [Lit "   Author: "; Fmt (VStr (lit "unknown")); Lit "..."])).
Proof.
  intros Hdec. rewrite (decode_and_log_ok _ _ Hdec).
  assert (Hline : forall author,
    slice_to 16 (dict_get (lit "pubkey") (VStr (lit "unknown")) d) = Ok author ->
    nth_error
      (fst (try_except (print_event (VDict d))
              (fun e => print [Lit "❌ Error decoding event: "; FmtExn e]))) 2 =
    Some (Print [Lit "   Author: "; Fmt author; Lit "..."])).
  { intros author Ha.
    destruct (try_except_prefix (print_event (VDict d))
                (fun e => print [Lit "❌ Error decoding event: "; FmtExn e]))
      as [t ->].
    destruct (print_event_upto_author d author Ha) as [rest ->]. reflexivity. }
  split.
  - intros p Hp. apply Hline. unfold dict_get. now rewrite Hp.
  - intros Hp. apply Hline. unfold dict_get. now rewrite Hp.
Qed.

Lemma author_line_shows_pubkey_prefix_witness :
  nth_error (fst (decode_and_log (lit "eyJwdWJrZXkiOiIwMTIzNDU2Nzg5YWJjZGVmWFlaIn0"))) 2 =
  Some (Print [Lit "   Author: "; Fmt (VStr (lit "0123456789abcdef")); Lit "..."]) /\
  nth_error (fst (decode_and_log (lit "e30"))) 2 =
  Some (Print [Lit "   Author: "; Fmt (VStr (lit "unknown")); Lit "..."]).
Proof.
  split.
  - refine (proj1 (author_line_shows_pubkey_prefix (lit "eyJwdWJrZXkiOiIwMTIzNDU2Nzg5YWJjZGVmWFlaIn0")
                     [(lit "pubkey", VStr (lit "0123456789abcdefXYZ"))] _)
                  (lit "0123456789abcdefXYZ") _);
      vm_compute; reflexivity.
  - refine (proj2 (author_line_shows_pubkey_prefix (lit "e30") [] _) _);
      vm_compute; reflexivity.
Defined.

(** ** The content line *)

(** C5. After a successful decode to an object whose [pubkey] is a string or
    absent and whose [content] is the string [c], the fourth line printed by
    the [try] statement is the content line. It shows the first 100
    characters of [c] followed by the ellipsis marker when [c] has more than
    100 characters, and [c] itself with nothing after it otherwise; the
    event still holds the whole of [c]. *)
Theorem content_line_truncates_for_display_only data d c :
  decode_event data = Ok (VDict d) ->
  (dict_find (lit "pubkey") d = None \/
   exists p, dict_find (lit "pubkey") d = Some (VStr p)) ->
  dict_find (lit "content") d = Some (VStr c) ->
  ((100 < List.length c)%nat ->
     nth_error (fst (decode_and_log data)) 3 =
     Some (Print [Lit "   Content: "; Fmt (VStr (firstn 100 c)); Fmt (VStr (lit "..."))]) /\
     List.length (firstn 100 c) = 100%nat) /\
  ((List.length c <= 100)%nat ->
     nth_error (fst (decode_and_log data)) 3 =
     Some (Print [Lit "   Content: "; Fmt (VStr c); Fmt (VStr [])])) /\
  get (VDict d) (lit "content") (VStr []) = Ok (VStr c).
Proof.
  intros Hdec Hpk Hc.
  assert (Hget : dict_get (lit "content") (VStr []) d = VStr c)
    by (unfold dict_get; now rewrite Hc).
  assert (Hline :
    nth_error (fst (decode_and_log data)) 3 =
    Some (Print [Lit "   Content: "; Fmt (VStr (firstn 100 c));
                 Fmt (ellipsis_if_longer 100 (List.length c))])).
  { rewrite (decode_and_log_ok _ _ Hdec).
    rewrite (print_event_lines d _ (VStr (firstn 100 c)) (List.length c)
               (slice_absent_or_str (lit "pubkey") (lit "unknown") 16 d Hpk)).
    - reflexivity.
    - now rewrite Hget.
    - now rewrite Hget. }
  repeat split.
  - rewrite Hline. unfold ellipsis_if_longer.
    apply Nat.ltb_lt in H. now rewrite H.
  - apply firstn_length_le. lia.
  - intros Hle. rewrite Hline. unfold ellipsis_if_longer.
    rewrite firstn_all2 by exact Hle.
    apply Nat.ltb_ge in Hle. now rewrite Hle.
  - unfold get. now rewrite Hget.
Qed.

Lemma content_line_truncates_for_display_only_witness :
  nth_error (fst (decode_and_log (lit "eyJjb250ZW50IjoieHh4eHh4eHh4eHh4eHh4eHh4eHh4eHh4eHh4eHh4eHh4eHh4eHh4eHh4eHh4eHh4eHh4eHh4eHh4eHh4eHh4eHh4eHh4eHh4eHh4eHh4eHh4eHh4eHh4eHh4eHh4eHh4eHh4eHgifQ"))) 3 =
  Some (Print [Lit "   Content: "; Fmt (VStr (repeat 120%N 100)); Fmt (VStr (lit "..."))]) /\
  nth_error (fst (decode_and_log (lit "eyJjb250ZW50IjoiaGVsbG8ifQ"))) 3 =
  Some (Print [Lit "   Content: "; Fmt (VStr (lit "hello")); Fmt (VStr [])]).
Proof.
  split.
  - refine (proj1 (proj1 (content_line_truncates_for_display_only (lit "eyJjb250ZW50IjoieHh4eHh4eHh4eHh4eHh4eHh4eHh4eHh4eHh4eHh4eHh4eHh4eHh4eHh4eHh4eHh4eHh4eHh4eHh4eHh4eHh4eHh4eHh4eHh4eHh4eHh4eHh4eHh4eHh4eHh4eHh4eHh4eHh4eHgifQ")
              [(lit "content", VStr (repeat 120%N 101))] (repeat 120%N 101) _ _ _) _)).
    + vm_compute; reflexivity.
    + left; reflexivity.
    + reflexivity.
    + vm_compute; lia.
  - refine (proj1 (proj2 (content_line_truncates_for_display_only
              (lit "eyJjb250ZW50IjoiaGVsbG8ifQ")
              [(lit "content", VStr (lit "hello"))] (lit "hello") _ _ _)) _).
    + vm_compute; reflexivity.
    + left; reflexivity.
    + reflexivity.
    + vm_compute; lia.
Defined.

(** ** Missing fields *)

(** C8. After a successful decode to an object whose [pubkey] and [content]
    are each a string or absent, the [try] statement prints its five lines
    and ends normally; a missing [kind] or [created_at] is shown as the word
    unknown, and for a missing [content] both the preview and the marker
    after it are the empty string. *)
Theorem missing_fields_are_not_errors data d :
  decode_event data = Ok (VDict d) ->
  (dict_find (lit "pubkey") d = None \/
   exists p, dict_find (lit "pubkey") d = Some (VStr p)) ->
  (dict_find (lit "content") d = None \/
   exists c, dict_find (lit "content") d = Some (VStr c)) ->
  exists kind author preview marker created,
    decode_and_log data =
    ([Print [Lit "✅ Event decoded successfully:"];
      Print [Lit "   Kind: "; Fmt kind];
      Print [Lit "   Author: "; Fmt author; Lit "..."];
      Print [Lit "   Content: "; Fmt preview; Fmt marker];
      Print [Lit "   Created: "; Fmt created]], Ok tt) /\
    (dict_find (lit "kind") d = None -> kind = VStr (lit "unknown")) /\
    (dict_find (lit "content") d = None -> preview = VStr [] /\ marker = VStr []) /\
    (dict_find (lit "created_at") d = None -> created = VStr (lit "unknown")).
Proof.
  intros Hdec Hpk Hc.
  pose (content := match dict_find (lit "content") d with
                   | Some (VStr s) => s
                   | _ => []
                   end).
  assert (Hget : dict_get (lit "content") (VStr []) d = VStr content).
  { unfold dict_get, content. destruct Hc as [H | [c H]]; now rewrite H. }
  exists (dict_get (lit "kind") (VStr (lit "unknown")) d),
         (VStr (firstn 16 (match dict_find (lit "pubkey") d with
                           | Some (VStr s) => s
                           | _ => lit "unknown"
                           end))),
         (VStr (firstn 100 content)),
         (ellipsis_if_longer 100 (List.length content)),
         (dict_get (lit "created_at") (VStr (lit "unknown")) d).
  repeat split.
  - rewrite (decode_and_log_ok _ _ Hdec).
    rewrite (print_event_lines d _ (VStr (firstn 100 content)) (List.length content)
               (slice_absent_or_str (lit "pubkey") (lit "unknown") 16 d Hpk)).
    + reflexivity.
    + now rewrite Hget.
    + now rewrite Hget.
  - intros H. unfold dict_get. now rewrite H.
  - unfold content. now rewrite H.
  - unfold content. now rewrite H.
  - intros H. unfold dict_get. now rewrite H.
Qed.

Lemma missing_fields_are_not_errors_witness :
  exists kind author preview marker created,
    decode_and_log (lit "e30") =
    ([Print [Lit "✅ Event decoded successfully:"];
      Print [Lit "   Kind: "; Fmt kind];
      Print [Lit "   Author: "; Fmt author; Lit "..."];
      Print [Lit "   Content: "; Fmt preview; Fmt marker];
      Print [Lit "   Created: "; Fmt created]], Ok tt) /\
    (dict_find (lit "kind") (@nil (str * value)) = None -> kind = VStr (lit "unknown")) /\
    (dict_find (lit "content") (@nil (str * value)) = None ->
       preview = VStr [] /\ marker = VStr []) /\
    (dict_find (lit "created_at") (@nil (str * value)) = None ->
       created = VStr (lit "unknown")).
Proof.
  apply (missing_fields_are_not_errors (lit "e30") []);
    [vm_compute; reflexivity | left; reflexivity | left; reflexivity].
Defined.

(** ** The example payload *)

(** C3. The event value below is the base64url text of the object with
    [kind] 1, [pubkey] abcd1234abcd1234extra, [content] hello and
    [created_at] 1700000000. Decoding recovers these four fields, and a
    request carrying it (with an [id]) prints [kind] and [created_at] as
    they are, the first 16 characters of [pubkey], and [content] whole with
    an empty marker after it. *)
Theorem example_payload_is_decoded_and_shown :
  let event_data := lit "eyJraW5kIjoxLCJwdWJrZXkiOiJhYmNkMTIzNGFiY2QxMjM0ZXh0cmEiLCJjb250ZW50IjoiaGVsbG8iLCJjcmVhdGVkX2F0IjoxNzAwMDAwMDAwfQ" in
  let path := (lit "/index.html?id=abc&event=" ++ event_data)%list in
  let q := [34%N] in
  rbind (Base64.urlsafe_b64decode (padded event_data)) Utf8.decode =
  Ok (lit "{" ++ q ++ lit "kind" ++ q ++ lit ":1," ++
      q ++ lit "pubkey" ++ q ++ lit ":" ++ q ++ lit "abcd1234abcd1234extra" ++ q ++ lit "," ++
      q ++ lit "content" ++ q ++ lit ":" ++ q ++ lit "hello" ++ q ++ lit "," ++
      q ++ lit "created_at" ++ q ++ lit ":1700000000}")%list /\
  decode_event event_data =
  Ok (VDict [(lit "kind", VInt 1);
             (lit "pubkey", VStr (lit "abcd1234abcd1234extra"));
             (lit "content", VStr (lit "hello"));
             (lit "created_at", VInt 1700000000)]) /\
  do_GET path =
  ([Print [Lit (newline ++ "📨 Request: "); Fmt (VStr path)];
    Print [Lit "🎯 Event ID: "; Fmt (VStr (lit "abc"))];
    Print [Lit "📦 Event Data: "; Fmt (VStr (firstn 50 event_data));
           Fmt (VStr (lit "..."))];
    Print [Lit "📏 Event Data Size: "; Fmt (VInt 114); Lit " characters"];
    Print [Lit "✅ Event decoded successfully:"];
    Print [Lit "   Kind: "; Fmt (VInt 1)];
    Print [Lit "   Author: "; Fmt (VStr (lit "abcd1234abcd1234")); Lit "..."];
    Print [Lit "   Content: "; Fmt (VStr (lit "hello")); Fmt (VStr [])];
    Print [Lit "   Created: "; Fmt (VInt 1700000000)];
    SuperDoGET path], Ok tt).
Proof. repeat split; vm_compute; reflexivity. Qed.

(** ** Blank query values *)

(** C10. [parse_qs] drops a field whose value is blank, so every list of
    values the handler finds is non-empty and holds no blank value. A
    request with the query [id=] is handled as one without [id] (the request
    line, then the inherited handler), and a request with [id=x&event=] as
    one without [event] (the note, and no decoding). *)
Theorem blank_query_values_are_dropped :
  (forall field name, Urllib.split_once 61 field = Some (name, []) ->
     Urllib.parse_field field = []) /\
  (forall qs key values, dict_find key (Urllib.parse_qs qs) = Some values ->
     values <> [] /\ Forall (fun v => v <> []) values) /\
  Urllib.parse_qs (lit "id=") = [] /\
  do_GET (lit "/?id=") =
  ([Print [Lit (newline ++ "📨 Request: "); Fmt (VStr (lit "/?id="))];
    SuperDoGET (lit "/?id=")], Ok tt) /\
  Urllib.parse_qs (lit "id=x&event=") = Urllib.parse_qs (lit "id=x") /\
  do_GET (lit "/x?id=x&event=") =
  ([Print [Lit (newline ++ "📨 Request: "); Fmt (VStr (lit "/x?id=x&event="))];
    Print [Lit "🎯 Event ID: "; Fmt (VStr (lit "x"))];
    Print [Lit "ℹ️  Event data not included (likely > 500KB)"];
    SuperDoGET (lit "/x?id=x&event=")], Ok tt).
Proof.
  split; [| split; [| repeat split; vm_compute; reflexivity]].
  - intros field name H. unfold Urllib.parse_field.
    destruct field; [reflexivity |]. now rewrite H.
  - intros qs key values H.
    exact (dict_find_all_values values_ok key values _ (parse_qs_values_ok qs) H).
Qed.

Lemma blank_query_values_are_dropped_witness :
  Urllib.parse_field (lit "event=") = [] /\
  ([lit "7"; lit "8"] <> [] /\ Forall (fun v : str => v <> []) [lit "7"; lit "8"]).
Proof.
  split.
  - apply (proj1 blank_query_values_are_dropped (lit "event=") (lit "event")).
    reflexivity.
  - apply (proj1 (proj2 blank_query_values_are_dropped)
             (lit "id=7&x=&id=8") (lit "id") [lit "7"; lit "8"]).
    reflexivity.
Defined.

(** ** Delegation to the inherited handler *)

Lemma prints_bind {A B} (m : M A) (k : A -> M B) :
  Forall is_print (fst m) -> (forall a, Forall is_print (fst (k a))) ->
  Forall is_print (fst (bind m k)).
Proof.
  intros Hm Hk. destruct m as [t [a | e | ]]; simpl in *; try exact Hm.
  specialize (Hk a). destruct (k a) as [t' r]. simpl in *.
  apply Forall_app. now split.
Qed.

Lemma prints_lift {A} (r : result A) : Forall is_print (fst (lift r)).
Proof. constructor. Qed.

Lemma prints_print line : Forall is_print (fst (print line)).
Proof. repeat constructor. Qed.

Lemma prints_try_except {A} (body : M A) (handler : exn -> M A) :
  Forall is_print (fst body) -> (forall e, Forall is_print (fst (handler e))) ->
  Forall is_print (fst (try_except body handler)).
Proof.
  intros Hb Hh. destruct body as [t [a | e | ]]; simpl in *; try exact Hb.
  specialize (Hh e). destruct (handler e) as [t' r]. simpl in *.
  apply Forall_app. now split.
Qed.

Ltac only_prints :=
  repeat first
    [ apply prints_print
    | apply prints_lift
    | apply prints_bind; [| intros ?] ].

Lemma print_event_prints event : Forall is_print (fst (print_event event)).
Proof. unfold print_event. only_prints. Qed.

Lemma decode_and_log_prints data : Forall is_print (fst (decode_and_log data)).
Proof.
  unfold decode_and_log. apply prints_try_except.
  - only_prints.
  - intros e. apply prints_print.
Qed.

(** X1. Whenever [urlparse] accepts the request target, and as long as the
    run stays within the modelled part of the libraries, nothing raised on
    lines 18 to 54 leaves the handler: whatever the query holds and however
    decoding ends, the handler only prints and then reaches the call of the
    inherited handler, once and last, on the unchanged request. What that
    call does, failing included, is not modelled. *)
Theorem accepted_target_is_always_served path query :
  Urllib.urlparse_query path = Ok query ->
  snd (do_GET path) <> OutOfModel ->
  exists log,
    do_GET path = ((log ++ [SuperDoGET path])%list, Ok tt) /\
    Forall is_print log.
Proof.
  intros Hq Hmodel.
  destruct (dict_find (lit "id") (Urllib.parse_qs query)) as [values |] eqn:Hid.
  - destruct (parse_qs_find _ _ _ Hid) as (event_id & ids & -> & _).
    destruct (dict_find (lit "event") (Urllib.parse_qs query)) as [events |] eqn:Hev.
    + destruct (parse_qs_find _ _ _ Hev) as (data & events' & -> & Hne).
      destruct data as [| c data]; [congruence |].
      rewrite (do_GET_with_event _ _ _ _ _ _ _ Hq Hid Hev) in *.
      rewrite bind_ok in *. cbn [fst snd] in *.
      pose proof (decode_and_log_prints (c :: data)) as Hp.
      pose proof (decode_and_log_no_raise (c :: data)) as Hr.
      destruct (decode_and_log (c :: data)) as [t [[] | e | ]]; simpl in *.
      * eexists. split.
        -- rewrite !app_comm_cons. reflexivity.
        -- repeat (constructor; [exact I |]). exact Hp.
      * now destruct (Hr e).
      * now destruct Hmodel.
    + rewrite (do_GET_without_event _ _ _ _ Hq Hid Hev).
      eexists [_; _; _]. split; [reflexivity | repeat constructor].
  - rewrite (do_GET_without_id _ _ Hq Hid).
    eexists [_]. split; [reflexivity | repeat constructor].
Qed.

Lemma accepted_target_is_always_served_witness :
  exists log,
    do_GET (lit "/style.css?id=1&event=AAAAA") =
    ((log ++ [SuperDoGET (lit "/style.css?id=1&event=AAAAA")])%list, Ok tt) /\
    Forall is_print log.
Proof.
  apply (accepted_target_is_always_served (lit "/style.css?id=1&event=AAAAA")
           (lit "id=1&event=AAAAA")).
  - reflexivity.
  - vm_compute. discriminate.
Defined.

(** C7. The claim fails on the code. For the target below [urlparse]
    raises on line 17, outside the [try]: the handler ends with the
    exception before the request line is printed and before the inherited
    handler is called, so this request is neither logged nor served. *)
Lemma malformed_target_is_not_served :
  do_GET (lit "http://[") = ([], Raise (ValueError "Invalid IPv6 URL")) /\
  ~ In (SuperDoGET (lit "http://[")) (fst (do_GET (lit "http://["))).
Proof. split; [reflexivity | intros []]. Qed.

(** ** Padding *)

Lemma data_char_valid c :
  is_data_char c = true ->
  (c <? 128)%N = true /\
  (Base64.urlsafe_translate c =? 61)%N = false /\
  exists v, Base64.b64_value (Base64.urlsafe_translate c) = Some v.
Proof.
  unfold is_data_char.
  destruct (Base64.b64_value (Base64.urlsafe_translate c)) as [v |] eqn:E;
    [intros _ | discriminate].
  assert (Hlt : (Base64.urlsafe_translate c < 128)%N).
  { destruct (N.ltb_spec (Base64.urlsafe_translate c) 128) as [H | H]; [exact H |].
    exfalso. revert E. generalize dependent (Base64.urlsafe_translate c). intros x H.
    unfold Base64.b64_value, Utf8.between.
    replace (x <=? 90)%N with false by (symmetry; apply N.leb_gt; lia).
    replace (x <=? 122)%N with false by (symmetry; apply N.leb_gt; lia).
    replace (x <=? 57)%N with false by (symmetry; apply N.leb_gt; lia).
    replace (x =? 43)%N with false by (symmetry; apply N.eqb_neq; lia).
    replace (x =? 47)%N with false by (symmetry; apply N.eqb_neq; lia).
    rewrite !andb_false_r. discriminate. }
  assert (Hne : (Base64.urlsafe_translate c =? 61)%N = false).
  { destruct (Base64.urlsafe_translate c =? 61)%N eqn:E61; [| reflexivity].
    apply N.eqb_eq in E61. rewrite E61 in E. discriminate. }
  repeat split; [| exact Hne | now exists v].
  revert Hlt. unfold Base64.urlsafe_translate.
  destruct (c =? 45)%N eqn:E1; [apply N.eqb_eq in E1; intros _; apply N.ltb_lt; lia |].
  destruct (c =? 95)%N eqn:E2; [apply N.eqb_eq in E2; intros _; apply N.ltb_lt; lia |].
  intros H. now apply N.ltb_lt.
Qed.

Lemma a2b_loop_data c v rest quad_pos leftchar pads out :
  (c =? 61)%N = false -> Base64.b64_value c = Some v ->
  Base64.a2b_loop (c :: rest) quad_pos leftchar pads out =
  match quad_pos with
  | O => Base64.a2b_loop rest 1 v 0 out
  | 1%nat =>
      Base64.a2b_loop rest 2 (N.land v 15) 0
        (out ++ [Base64.byte_of (N.lor (N.shiftl leftchar 2) (N.shiftr v 4))])%list
  | 2%nat =>
      Base64.a2b_loop rest 3 (N.land v 3) 0
        (out ++ [Base64.byte_of (N.lor (N.shiftl leftchar 4) (N.shiftr v 2))])%list
  | _ =>
      Base64.a2b_loop rest 0 0 0
        (out ++ [Base64.byte_of (N.lor (N.shiftl leftchar 6) v)])%list
  end.
Proof. intros H1 H2. cbn [Base64.a2b_loop]. now rewrite H1, H2. Qed.

(** Padding after a single data character is skipped, and the end of the
    input then reports the count of data characters. *)
Lemma a2b_loop_padding_after_one n leftchar pads out :
  Base64.a2b_loop (repeat 61%N n) 1 leftchar pads out =
  Raise (invalid_length (List.length out / 3 * 4 + 1)).
Proof. induction n as [| n IH]; [reflexivity | exact IH]. Qed.

(** A run of data characters whose length is one more than a multiple of
    four, followed by three padding characters, is refused. *)
Lemma a2b_loop_one_extra k : forall data j out leftchar pads,
  List.length data = (4 * k + 1)%nat ->
  Forall (fun c => (c =? 61)%N = false /\ exists v, Base64.b64_value c = Some v) data ->
  List.length out = (3 * j)%nat ->
  Base64.a2b_loop (data ++ repeat 61%N 3)%list 0 leftchar pads out =
  Raise (invalid_length (4 * (j + k) + 1)).
Proof.
  induction k as [| k IH]; intros data j out leftchar pads Hlen Hall Hout.
  - destruct data as [| c [| ? ?]]; try (simpl in Hlen; lia).
    apply Forall_cons_iff in Hall as [[H61 [v Hv]] _].
    cbn [app]. rewrite (a2b_loop_data _ v _ _ _ _ _ H61 Hv).
    rewrite a2b_loop_padding_after_one, Hout.
    replace (3 * j / 3)%nat with j
      by (symmetry; rewrite Nat.mul_comm; apply Nat.div_mul; lia).
    do 2 f_equal. lia.
  - destruct data as [| c1 [| c2 [| c3 [| c4 data]]]]; try (simpl in Hlen; lia).
    apply Forall_cons_iff in Hall as [[H1 [v1 Hv1]] Hall].
    apply Forall_cons_iff in Hall as [[H2 [v2 Hv2]] Hall].
    apply Forall_cons_iff in Hall as [[H3 [v3 Hv3]] Hall].
    apply Forall_cons_iff in Hall as [[H4 [v4 Hv4]] Hall].
    cbn [app].
    rewrite (a2b_loop_data _ v1 _ _ _ _ _ H1 Hv1).
    rewrite (a2b_loop_data _ v2 _ _ _ _ _ H2 Hv2).
    rewrite (a2b_loop_data _ v3 _ _ _ _ _ H3 Hv3).
    rewrite (a2b_loop_data _ v4 _ _ _ _ _ H4 Hv4).
    rewrite (IH data (S j)).
    + f_equal. f_equal. lia.
    + simpl in Hlen. lia.
    + exact Hall.
    + rewrite !length_app, Hout. simpl. lia.
Qed.

(** C1, as the code has it. The value is followed by [4 - L mod 4] padding
    characters, between one and four of them, which brings the length to a
    multiple of four; and a value of data characters only whose length is
    one more than a multiple of four is refused by the base64 decoder. *)
Theorem padding_reaches_next_multiple_of_four event_data :
  padded event_data =
  (event_data ++ repeat 61%N (4 - List.length event_data mod 4))%list /\
  (1 <= pad_count event_data <= 4)%nat /\
  (List.length (padded event_data) mod 4 = 0)%nat /\
  ((List.length event_data mod 4 = 1)%nat ->
   forallb is_data_char event_data = true ->
   decode_event event_data = Raise (invalid_length (List.length event_data))).
Proof.
  pose proof (Nat.mod_upper_bound (List.length event_data) 4 ltac:(lia)) as Hm.
  pose proof (Nat.div_mod_eq (List.length event_data) 4) as Hd.
  repeat split.
  - unfold pad_count. lia.
  - unfold pad_count. lia.
  - unfold padded, pad_count. rewrite length_app, repeat_length.
    replace (List.length event_data + (4 - List.length event_data mod 4))%nat
      with ((List.length event_data / 4 + 1) * 4)%nat by lia.
    apply Nat.Div0.mod_mul.
  - intros Hone Hdata.
    assert (Hall : Forall (fun c => is_data_char c = true) event_data)
      by (apply Forall_forall; apply forallb_forall; exact Hdata).
    unfold decode_event, padded, pad_count. rewrite Hone. cbn [Nat.sub].
    unfold Base64.urlsafe_b64decode, Base64.bytes_from_decode_data.
    assert (Hascii : forallb (fun c => (c <? 128)%N) (event_data ++ repeat 61%N 3)%list = true).
    { rewrite forallb_app. apply andb_true_intro. split; [| reflexivity].
      apply forallb_forall. intros c Hc.
      rewrite Forall_forall in Hall. now destruct (data_char_valid c (Hall c Hc)). }
    rewrite Hascii. cbn [rbind]. unfold Base64.a2b_base64.
    rewrite map_app.
    change (map Base64.urlsafe_translate (repeat 61%N 3)) with (repeat 61%N 3).
    rewrite (a2b_loop_one_extra (List.length event_data / 4)
               (map Base64.urlsafe_translate event_data) 0 [] 0%N 0).
    + cbn [rbind]. do 2 f_equal. lia.
    + rewrite length_map. lia.
    + apply Forall_map. rewrite Forall_forall in *. intros c Hc.
      now destruct (data_char_valid c (Hall c Hc)) as (_ & ? & ?).
    + reflexivity.
Qed.

Lemma padding_reaches_next_multiple_of_four_witness :
  decode_event (lit "e30-_") = Raise (invalid_length 5).
Proof.
  apply (proj2 (proj2 (proj2 (padding_reaches_next_multiple_of_four (lit "e30-_")))));
    reflexivity.
Defined.

(** C1, as stated, fails twice. A value whose length is a multiple of four
    gets four padding characters, not none; and a value whose length is one
    more than a multiple of four can decode, since the decoder skips what is
    not a data character. *)
Lemma padding_is_not_reduced_modulo_four :
  pad_count (lit "e30=") = 4%nat /\
  ((4 - List.length (lit "e30=") mod 4) mod 4 = 0)%nat /\
  (List.length (lit "e30!!") mod 4 = 1)%nat /\
  decode_event (lit "e30!!") = Ok (VDict []).
Proof. repeat split; vm_compute; reflexivity. Qed.

(** * Further properties of the handler *)

(** ** Events that are not what the handler expects *)

(** X2. When the event value decodes to JSON that is not an object (an
    array, a string, a number, [true], [false] or [null]), the handler has
    already printed the success line when the first field access fails: it
    then prints the failure notice with the [AttributeError] and ends
    normally, without any of the four field lines. *)
Theorem non_object_event_is_reported_after_success_line data event :
  decode_event data = Ok event ->
  (forall items, event <> VDict items) ->
  exists msg,
    decode_and_log data =
    ([Print [Lit "✅ Event decoded successfully:"];
      Print [Lit "❌ Error decoding event: "; FmtExn (AttributeError msg)]], Ok tt).
Proof.
  intros Hdec Hnot. rewrite (decode_and_log_ok _ _ Hdec).
  destruct event as [| b | z | text | s | l | items];
    try (eexists; reflexivity).
  now destruct (Hnot items).
Qed.

Lemma non_object_event_is_reported_after_success_line_witness :
  exists msg,
    decode_and_log (lit "WzFd") =
    ([Print [Lit "✅ Event decoded successfully:"];
      Print [Lit "❌ Error decoding event: "; FmtExn (AttributeError msg)]], Ok tt).
Proof.
  apply (non_object_event_is_reported_after_success_line (lit "WzFd")
           (VList [VInt 1])).
  - vm_compute; reflexivity.
  - intros items; discriminate.
Defined.

(** X3. When the decoded object has a [pubkey] that is neither a string nor
    an array, slicing it fails: the success line and the kind line are
    printed, then the failure notice with the [TypeError]; the author,
    content and created lines are not printed, and the run ends normally. *)
Theorem unsliceable_pubkey_stops_after_kind_line data d pubkey :
  decode_event data = Ok (VDict d) ->
  dict_find (lit "pubkey") d = Some pubkey ->
  (forall s, pubkey <> VStr s) ->
  (forall l, pubkey <> VList l) ->
  exists msg,
    decode_and_log data =
    ([Print [Lit "✅ Event decoded successfully:"];
      Print [Lit "   Kind: "; Fmt (dict_get (lit "kind") (VStr (lit "unknown")) d)];
      Print [Lit "❌ Error decoding event: "; FmtExn (TypeError msg)]], Ok tt).
Proof.
  intros Hdec Hpk Hstr Hlist. rewrite (decode_and_log_ok _ _ Hdec).
  assert (Hslice : exists msg,
            slice_to 16 (dict_get (lit "pubkey") (VStr (lit "unknown")) d) =
            Raise (TypeError msg)).
  { unfold dict_get. rewrite Hpk.
    destruct pubkey as [| b | z | text | s | l | items];
      try (eexists; reflexivity).
    - now destruct (Hstr s).
    - now destruct (Hlist l). }
  destruct Hslice as [msg Hslice]. exists msg.
  unfold print_event, get.
  rewrite bind_print, (bind_lift_ok _ _ _ eq_refl), bind_print.
  rewrite (bind_lift_ok _ _ _ eq_refl), (bind_lift_raise _ _ _ Hslice).
  reflexivity.
Qed.

Lemma unsliceable_pubkey_stops_after_kind_line_witness :
  exists msg,
    decode_and_log (lit "eyJwdWJrZXkiOjF9") =
    ([Print [Lit "✅ Event decoded successfully:"];
      Print [Lit "   Kind: ";
             Fmt (dict_get (lit "kind") (VStr (lit "unknown"))
                    [(lit "pubkey", VInt 1)])];
      Print [Lit "❌ Error decoding event: "; FmtExn (TypeError msg)]], Ok tt).
Proof.
  apply (unsliceable_pubkey_stops_after_kind_line (lit "eyJwdWJrZXkiOjF9")
           [(lit "pubkey", VInt 1)] (VInt 1)).
  - vm_compute; reflexivity.
  - reflexivity.
  - intros s; discriminate.
  - intros l; discriminate.
Defined.

(** X4. When the decoded object has a [pubkey] that is a string or absent
    but a [content] that is neither a string nor an array, the success,
    kind and author lines are printed, then the failure notice with the
    [TypeError]; the content and created lines are not printed, and the run
    ends normally. *)
Theorem unsliceable_content_stops_after_author_line data d content :
  decode_event data = Ok (VDict d) ->
  (dict_find (lit "pubkey") d = None \/
   exists p, dict_find (lit "pubkey") d = Some (VStr p)) ->
  dict_find (lit "content") d = Some content ->
  (forall s, content <> VStr s) ->
  (forall l, content <> VList l) ->
  exists author msg,
    decode_and_log data =
    ([Print [Lit "✅ Event decoded successfully:"];
      Print [Lit "   Kind: "; Fmt (dict_get (lit "kind") (VStr (lit "unknown")) d)];
      Print [Lit "   Author: "; Fmt (VStr author); Lit "..."];
      Print [Lit "❌ Error decoding event: "; FmtExn (TypeError msg)]], Ok tt).
Proof.
  intros Hdec Hpk Hc Hstr Hlist. rewrite (decode_and_log_ok _ _ Hdec).
  assert (Hslice : exists msg,
            slice_to 100 (dict_get (lit "content") (VStr []) d) =
            Raise (TypeError msg)).
  { unfold dict_get. rewrite Hc.
    destruct content as [| b | z | text | s | l | items];
      try (eexists; reflexivity).
    - now destruct (Hstr s).
    - now destruct (Hlist l). }
  destruct Hslice as [msg Hslice]. eexists. exists msg.
  unfold print_event, get.
  rewrite bind_print, (bind_lift_ok _ _ _ eq_refl), bind_print.
  rewrite (bind_lift_ok _ _ _ eq_refl).
  rewrite (bind_lift_ok _ _ _
             (slice_absent_or_str (lit "pubkey") (lit "unknown") 16 d Hpk)).
  rewrite bind_print, (bind_lift_ok _ _ _ eq_refl), (bind_lift_raise _ _ _ Hslice).
  reflexivity.
Qed.

Lemma unsliceable_content_stops_after_author_line_witness :
  exists author msg,
    decode_and_log (lit "eyJjb250ZW50Ijo3fQ") =
    ([Print [Lit "✅ Event decoded successfully:"];
      Print [Lit "   Kind: ";
             Fmt (dict_get (lit "kind") (VStr (lit "unknown"))
                    [(lit "content", VInt 7)])];
      Print [Lit "   Author: "; Fmt (VStr author); Lit "..."];
      Print [Lit "❌ Error decoding event: "; FmtExn (TypeError msg)]], Ok tt).
Proof.
  apply (unsliceable_content_stops_after_author_line (lit "eyJjb250ZW50Ijo3fQ")
           [(lit "content", VInt 7)] (VInt 7)).
  - vm_compute; reflexivity.
  - left; reflexivity.
  - reflexivity.
  - intros s; discriminate.
  - intros l; discriminate.
Defined.

(** ** Padding is enough for unpadded base64url text *)

Lemma a2b_loop_padded k : forall data r out leftchar pads,
  r = 0%nat \/ r = 2%nat \/ r = 3%nat ->
  List.length data = (4 * k + r)%nat ->
  Forall (fun c => (c =? 61)%N = false /\ exists v, Base64.b64_value c = Some v) data ->
  exists decoded,
    Base64.a2b_loop (data ++ repeat 61%N (4 - r))%list 0 leftchar pads out =
    Ok (out ++ decoded)%list /\
    List.length decoded = (3 * k + r * 3 / 4)%nat.
Proof.
  induction k as [| k IH]; intros data r out leftchar pads Hr Hlen Hall.
  - destruct Hr as [-> | [-> | ->]].
    + destruct data; [| discriminate].
      exists []. split; [| reflexivity]. now rewrite app_nil_r.
    + destruct data as [| c1 [| c2 [| ? ?]]]; try discriminate.
      apply Forall_cons_iff in Hall as [[H1 [v1 Hv1]] Hall].
      apply Forall_cons_iff in Hall as [[H2 [v2 Hv2]] _].
      cbn [app Nat.sub repeat].
      rewrite (a2b_loop_data _ v1 _ _ _ _ _ H1 Hv1).
      rewrite (a2b_loop_data _ v2 _ _ _ _ _ H2 Hv2).
      eexists [_]. split; reflexivity.
    + destruct data as [| c1 [| c2 [| c3 [| ? ?]]]]; try discriminate.
      apply Forall_cons_iff in Hall as [[H1 [v1 Hv1]] Hall].
      apply Forall_cons_iff in Hall as [[H2 [v2 Hv2]] Hall].
      apply Forall_cons_iff in Hall as [[H3 [v3 Hv3]] _].
      cbn [app Nat.sub repeat].
      rewrite (a2b_loop_data _ v1 _ _ _ _ _ H1 Hv1).
      rewrite (a2b_loop_data _ v2 _ _ _ _ _ H2 Hv2).
      rewrite (a2b_loop_data _ v3 _ _ _ _ _ H3 Hv3).
      eexists [_; _]. split; [| reflexivity].
      cbn. now rewrite <- app_assoc.
  - destruct data as [| c1 [| c2 [| c3 [| c4 data]]]];
      try (simpl in Hlen; lia).
    apply Forall_cons_iff in Hall as [[H1 [v1 Hv1]] Hall].
    apply Forall_cons_iff in Hall as [[H2 [v2 Hv2]] Hall].
    apply Forall_cons_iff in Hall as [[H3 [v3 Hv3]] Hall].
    apply Forall_cons_iff in Hall as [[H4 [v4 Hv4]] Hall].
    cbn [app].
    rewrite (a2b_loop_data _ v1 _ _ _ _ _ H1 Hv1).
    rewrite (a2b_loop_data _ v2 _ _ _ _ _ H2 Hv2).
    rewrite (a2b_loop_data _ v3 _ _ _ _ _ H3 Hv3).
    rewrite (a2b_loop_data _ v4 _ _ _ _ _ H4 Hv4).
    destruct (IH data r
                (((out ++ [Base64.byte_of (N.lor (N.shiftl v1 2) (N.shiftr v2 4))])
                  ++ [Base64.byte_of (N.lor (N.shiftl (N.land v2 15) 4) (N.shiftr v3 2))])
                  ++ [Base64.byte_of (N.lor (N.shiftl (N.land v3 3) 6) v4)])%list
                0%N 0%nat Hr) as (decoded & Hdec & Hcount).
    + simpl in Hlen. lia.
    + exact Hall.
    + eexists (_ :: _ :: _ :: decoded). split.
      * rewrite Hdec. now rewrite <- !app_assoc.
      * cbn [List.length]. rewrite Hcount. lia.
Qed.

(** X5. For an event value made only of base64 data characters whose
    length [L] is not one more than a multiple of four, the padding of the
    handler is always enough: the base64 step succeeds and yields
    [3 * L / 4] bytes (rounded down). *)
Theorem padding_suffices_for_unpadded_text event_data :
  forallb is_data_char event_data = true ->
  (List.length event_data mod 4 <> 1)%nat ->
  exists decoded_bytes,
    Base64.urlsafe_b64decode (padded event_data) = Ok decoded_bytes /\
    List.length decoded_bytes = (List.length event_data * 3 / 4)%nat.
Proof.
  intros Hdata Hmod.
  pose proof (Nat.mod_upper_bound (List.length event_data) 4 ltac:(lia)) as Hm.
  pose proof (Nat.div_mod_eq (List.length event_data) 4) as Hd.
  assert (Hall : Forall (fun c => is_data_char c = true) event_data)
    by (apply Forall_forall; apply forallb_forall; exact Hdata).
  unfold padded, pad_count.
  unfold Base64.urlsafe_b64decode, Base64.bytes_from_decode_data.
  assert (Hascii : forallb (fun c => (c <? 128)%N)
                     (event_data ++ repeat 61%N (4 - List.length event_data mod 4))%list
                   = true).
  { rewrite forallb_app. apply andb_true_intro. split.
    - apply forallb_forall. intros c Hc.
      rewrite Forall_forall in Hall. now destruct (data_char_valid c (Hall c Hc)).
    - apply forallb_forall. intros c Hc. apply repeat_spec in Hc. now subst. }
  rewrite Hascii. cbn [rbind]. unfold Base64.a2b_base64. rewrite map_app.
  replace (map Base64.urlsafe_translate (repeat 61%N (4 - List.length event_data mod 4)))
    with (repeat 61%N (4 - List.length event_data mod 4))
    by (now rewrite map_repeat).
  destruct (a2b_loop_padded (List.length event_data / 4)
              (map Base64.urlsafe_translate event_data)
              (List.length event_data mod 4) [] 0%N 0%nat)
    as (decoded & Hdec & Hcount).
  - lia.
  - rewrite length_map. lia.
  - apply Forall_map. rewrite Forall_forall in *. intros c Hc.
    now destruct (data_char_valid c (Hall c Hc)) as (_ & ? & ?).
  - exists decoded. split; [exact Hdec |].
    rewrite Hcount.
    replace (List.length event_data * 3)%nat
      with (3 * (List.length event_data / 4) * 4 + List.length event_data mod 4 * 3)%nat
      by lia.
    now rewrite Nat.div_add_l by lia.
Qed.

Lemma padding_suffices_for_unpadded_text_witness :
  exists decoded_bytes,
    Base64.urlsafe_b64decode (padded (lit "e30")) = Ok decoded_bytes /\
    List.length decoded_bytes = (List.length (lit "e30") * 3 / 4)%nat.
Proof.
  apply (padding_suffices_for_unpadded_text (lit "e30")).
  - reflexivity.
  - vm_compute; discriminate.
Defined.

(** ** ASCII payloads *)

Lemma decode_strict_ascii bs : forall fuel pos,
  (List.length bs <= fuel)%nat ->
  forallb (fun c => (c <? 128)%N) bs = true ->
  Utf8.decode_strict_from fuel pos bs = Ok bs.
Proof.
  induction bs as [| b0 r IH]; intros fuel pos Hfuel Hascii;
    [destruct fuel; reflexivity |].
  simpl in Hascii. apply andb_prop in Hascii as [Hb Hr].
  destruct fuel as [| fuel]; [simpl in Hfuel; lia |].
  cbn [Utf8.decode_strict_from]. unfold Utf8.decode1. rewrite Hb.
  rewrite IH; [reflexivity | simpl in Hfuel; lia | exact Hr].
Qed.

Lemma decode_replace_ascii bs : forall fuel,
  (List.length bs <= fuel)%nat ->
  forallb (fun c => (c <? 128)%N) bs = true ->
  Utf8.decode_replace_from fuel bs = bs.
Proof.
  induction bs as [| b0 r IH]; intros fuel Hfuel Hascii;
    [destruct fuel; reflexivity |].
  simpl in Hascii. apply andb_prop in Hascii as [Hb Hr].
  destruct fuel as [| fuel]; [simpl in Hfuel; lia |].
  cbn [Utf8.decode_replace_from]. unfold Utf8.decode1. rewrite Hb.
  rewrite IH; [reflexivity | simpl in Hfuel; lia | exact Hr].
Qed.

(** X6. When the base64 step yields only bytes below 128, the UTF-8 step
    cannot fail and changes nothing: the outcome of decoding the event is
    the outcome of [json.loads] on those bytes read as characters. *)
Theorem ascii_payload_goes_straight_to_json event_data decoded_bytes :
  Base64.urlsafe_b64decode (padded event_data) = Ok decoded_bytes ->
  forallb (fun c => (c <? 128)%N) decoded_bytes = true ->
  decode_event event_data = Json.loads decoded_bytes.
Proof.
  intros Hb64 Hascii. unfold decode_event. rewrite Hb64. cbn [rbind].
  unfold Utf8.decode. now rewrite decode_strict_ascii.
Qed.

Lemma ascii_payload_goes_straight_to_json_witness :
  decode_event (lit "e30") = Json.loads (lit "{}").
Proof.
  apply (ascii_payload_goes_straight_to_json (lit "e30") (lit "{}")); reflexivity.
Defined.

(** ** Requests without escapes *)

Lemma split_once_absent sep s : ~ In sep s -> Urllib.split_once sep s = None.
Proof.
  induction s as [| c r IH]; intros Hnot; [reflexivity |].
  simpl. destruct (N.eqb_spec c sep) as [-> | _].
  - destruct Hnot. now left.
  - rewrite IH; [reflexivity | intros H; apply Hnot; now right].
Qed.

Lemma split_once_first sep a b :
  ~ In sep a -> Urllib.split_once sep (a ++ sep :: b)%list = Some (a, b).
Proof.
  induction a as [| c r IH]; intros Hnot; simpl.
  - now rewrite N.eqb_refl.
  - destruct (N.eqb_spec c sep) as [-> | _].
    + destruct Hnot. now left.
    + rewrite IH; [reflexivity | intros H; apply Hnot; now right].
Qed.

Lemma split_absent sep s : ~ In sep s -> Urllib.split sep s = [s].
Proof.
  induction s as [| c r IH]; intros Hnot; [reflexivity |].
  simpl. destruct (N.eqb_spec c sep) as [-> | _].
  - destruct Hnot. now left.
  - rewrite IH; [reflexivity | intros H; apply Hnot; now right].
Qed.

Lemma split_first sep a b :
  ~ In sep a -> Urllib.split sep (a ++ sep :: b)%list = a :: Urllib.split sep b.
Proof.
  induction a as [| c r IH]; intros Hnot; simpl.
  - now rewrite N.eqb_refl.
  - destruct (N.eqb_spec c sep) as [-> | _].
    + destruct Hnot. now left.
    + rewrite IH; [reflexivity | intros H; apply Hnot; now right].
Qed.

Lemma remove_unsafe_id s :
  ~ In 9%N s -> ~ In 13%N s -> ~ In 10%N s -> Urllib.remove_unsafe s = s.
Proof.
  unfold Urllib.remove_unsafe.
  induction s as [| c r IH]; intros H9 H13 H10; [reflexivity |].
  simpl. destruct (N.eqb_spec c 9) as [-> | _]; [destruct H9; now left |].
  destruct (N.eqb_spec c 13) as [-> | _]; [destruct H13; now left |].
  destruct (N.eqb_spec c 10) as [-> | _]; [destruct H10; now left |].
  simpl. rewrite IH; [reflexivity | | |]; intros H; [apply H9 | apply H13 | apply H10];
    now right.
Qed.

Lemma plus_to_space_id s : ~ In 43%N s -> Urllib.plus_to_space s = s.
Proof.
  unfold Urllib.plus_to_space.
  induction s as [| c r IH]; intros Hnot; [reflexivity |].
  simpl. destruct (N.eqb_spec c 43) as [-> | _]; [destruct Hnot; now left |].
  rewrite IH; [reflexivity | intros H; apply Hnot; now right].
Qed.

Lemma unquote_to_bytes_id run : ~ In 37%N run -> Urllib.unquote_to_bytes run = run.
Proof.
  induction run as [| c r IH]; intros Hnot; [reflexivity |].
  simpl. destruct (N.eqb_spec c 37) as [-> | _]; [destruct Hnot; now left |].
  rewrite IH; [reflexivity | intros H; apply Hnot; now right].
Qed.

Lemma unquote_run_id run :
  ~ In 37%N run -> forallb (fun c => (c <? 128)%N) run = true ->
  Urllib.unquote_run run = run.
Proof.
  intros Hnot Hascii. unfold Urllib.unquote_run, Utf8.decode_replace.
  rewrite (unquote_to_bytes_id run Hnot). now apply decode_replace_ascii.
Qed.

Lemma unquote_acc_id s : forall run,
  ~ In 37%N s -> ~ In 37%N run -> forallb (fun c => (c <? 128)%N) run = true ->
  Urllib.unquote_acc s run = (run ++ s)%list.
Proof.
  induction s as [| c r IH]; intros run Hs Hrun Hascii; simpl.
  - rewrite app_nil_r. now apply unquote_run_id.
  - assert (Hr : ~ In 37%N r) by (intros H; apply Hs; now right).
    assert (Hc : c <> 37%N) by (intros ->; apply Hs; now left).
    destruct (c <? 128)%N eqn:Hlt.
    + rewrite IH; [now rewrite <- app_assoc | exact Hr | |].
      * intros H. apply in_app_or in H as [H | [H | []]]; [now apply Hrun | now apply Hc].
      * rewrite forallb_app, Hascii. simpl. now rewrite Hlt.
    + rewrite (unquote_run_id run Hrun Hascii), (IH [] Hr); [reflexivity | | reflexivity].
      intros [].
Qed.

(** X7. [unquote] leaves a text without a percent sign unchanged, whatever
    other characters it holds; so a query value without [%] and [+] reaches
    the handler exactly as it was sent. *)
Theorem unquote_without_percent_is_identity s :
  ~ In 37%N s -> Urllib.unquote s = s.
Proof.
  intros Hnot. unfold Urllib.unquote.
  now rewrite (unquote_acc_id s [] Hnot (fun H => H) eq_refl).
Qed.

Lemma unquote_without_percent_is_identity_witness :
  Urllib.unquote (lit "e30-_=") = lit "e30-_=".
Proof.
  apply (unquote_without_percent_is_identity (lit "e30-_=")).
  vm_compute. intuition discriminate.
Defined.

(** The query of an origin-form target [/name?query]: no scheme and no
    network location are found, and without [#] the query is everything
    after the first question mark. *)
Lemma urlparse_query_origin_form name query :
  hd_error name <> Some 47%N ->
  ~ In 63%N name ->
  (forall c, In c [35; 9; 13; 10]%N -> ~ In c name /\ ~ In c query) ->
  Urllib.urlparse_query (47%N :: name ++ 63%N :: query)%list = Ok query.
Proof.
  intros Hhd Hq Hclean.
  assert (Hin : forall c, In c [35; 9; 13; 10]%N ->
                  ~ In c (47%N :: name ++ 63%N :: query)%list).
  { intros c Hc [H | H].
    - destruct Hc as [<- | [<- | [<- | [<- | []]]]]; discriminate.
    - apply in_app_or in H as [H | [H | H]].
      + now apply (proj1 (Hclean c Hc)).
      + destruct Hc as [<- | [<- | [<- | [<- | []]]]]; discriminate.
      + now apply (proj2 (Hclean c Hc)). }
  unfold Urllib.urlparse_query.
  change (Urllib.lstrip_c0 (47%N :: name ++ 63%N :: query)%list)
    with (47%N :: name ++ 63%N :: query)%list.
  rewrite remove_unsafe_id by (apply Hin; simpl; tauto).
  assert (Hscheme : Urllib.strip_scheme (47%N :: name ++ 63%N :: query)%list
                    = (47%N :: name ++ 63%N :: query)%list).
  { unfold Urllib.strip_scheme. simpl.
    destruct (Urllib.split_once 58 (name ++ 63%N :: query)%list) as [[a b] |];
      reflexivity. }
  rewrite Hscheme.
  match goal with
  | |- (let '(_, _) := ?m in _) = _ =>
      replace m with (@nil N, (47%N :: name ++ 63%N :: query)%list)
  end.
  2:{ destruct name as [| c name']; [reflexivity |].
      assert (Hc : c <> 47%N) by (intros ->; now apply Hhd).
      simpl. destruct c as [| p]; [reflexivity |].
      do 6 (try destruct p as [p | p |]; try reflexivity).
      now destruct Hc. }
  cbn [Urllib.mem existsb xorb andb forallb].
  rewrite (split_once_absent 35) by (apply Hin; simpl; tauto).
  change (47%N :: name ++ 63%N :: query)%list
    with ((47%N :: name) ++ 63%N :: query)%list.
  rewrite split_once_first; [reflexivity |].
  intros [H | H]; [discriminate | now apply Hq].
Qed.

Lemma none_of_app chars a b :
  none_of chars a -> none_of chars b -> none_of chars (a ++ b)%list.
Proof.
  intros Ha Hb c Hc H. apply in_app_or in H as [H | H];
    [now apply (Ha c Hc) | now apply (Hb c Hc)].
Qed.

Lemma none_of_sub chars chars' s :
  incl chars' chars -> none_of chars s -> none_of chars' s.
Proof. intros Hsub H c Hc. apply H. now apply Hsub. Qed.

(** A field [name=value] without [+] and [%], with a non-empty value. *)
Lemma parse_field_plain name value :
  none_of [61; 43; 37]%N name -> none_of [43; 37]%N value -> value <> [] ->
  Urllib.parse_field (name ++ 61%N :: value)%list = [(name, value)].
Proof.
  intros Hname Hvalue Hne. unfold Urllib.parse_field.
  destruct (name ++ 61%N :: value)%list as [| c r] eqn:E;
    [now destruct (app_cons_not_nil _ _ _ (eq_sym E)) |].
  rewrite <- E, split_once_first by (apply Hname; simpl; tauto).
  destruct value as [| v vs]; [congruence |].
  unfold Urllib.unquote.
  rewrite !plus_to_space_id by (first [apply Hname | apply Hvalue]; simpl; tauto).
  rewrite !unquote_acc_id;
    first [reflexivity | apply Hname; simpl; tauto
          | apply Hvalue; simpl; tauto | intros []].
Qed.

Lemma parse_qs_id_and_event i e :
  none_of [38; 43; 37]%N i -> none_of [38; 43; 37]%N e -> i <> [] -> e <> [] ->
  Urllib.parse_qs (lit "id=" ++ i ++ lit "&event=" ++ e)%list =
  [(lit "id", [i]); (lit "event", [e])].
Proof.
  intros Hi He Hine Hene. unfold Urllib.parse_qs, Urllib.parse_qsl.
  change (lit "id=" ++ i ++ lit "&event=" ++ e)%list
    with (105%N :: ([100; 61]%N ++ i) ++ 38%N :: (lit "event=" ++ e))%list.
  change (105%N :: ([100; 61]%N ++ i) ++ 38%N :: (lit "event=" ++ e))%list
    with ((lit "id=" ++ i) ++ 38%N :: (lit "event=" ++ e))%list at 2.
  rewrite split_first, split_absent.
  - cbn [flat_map]. rewrite app_nil_r.
    change (lit "id=" ++ i)%list with (lit "id" ++ 61%N :: i)%list.
    change (lit "event=" ++ e)%list with (lit "event" ++ 61%N :: e)%list.
    rewrite !parse_field_plain; try assumption.
    + reflexivity.
    + intros c Hc H. vm_compute in H. simpl in Hc. intuition (subst; discriminate).
    + eapply none_of_sub; [| exact He]. intros c Hc. simpl in *. tauto.
    + intros c Hc H. vm_compute in H. simpl in Hc. intuition (subst; discriminate).
    + eapply none_of_sub; [| exact Hi]. intros c Hc. simpl in *. tauto.
  - intros H. apply in_app_or in H as [H | H].
    + vm_compute in H. intuition discriminate.
    + revert H. apply He. simpl; tauto.
  - intros H. apply in_app_or in H as [H | H].
    + vm_compute in H. intuition discriminate.
    + revert H. apply Hi. simpl; tauto.
Qed.

Lemma parse_qs_event_only e :
  none_of [38; 43; 37]%N e -> e <> [] ->
  Urllib.parse_qs (lit "event=" ++ e)%list = [(lit "event", [e])].
Proof.
  intros He Hene. unfold Urllib.parse_qs, Urllib.parse_qsl.
  change (lit "event=" ++ e)%list with (101%N :: [118; 101; 110; 116; 61]%N ++ e)%list.
  change (101%N :: [118; 101; 110; 116; 61]%N ++ e)%list
    with (lit "event=" ++ e)%list at 2.
  rewrite split_absent.
  - cbn [flat_map]. rewrite app_nil_r.
    change (lit "event=" ++ e)%list with (lit "event" ++ 61%N :: e)%list.
    rewrite parse_field_plain; try assumption.
    + reflexivity.
    + intros c Hc H. vm_compute in H. simpl in Hc. intuition (subst; discriminate).
    + eapply none_of_sub; [| exact He]. intros c Hc. simpl in *. tauto.
  - intros H. apply in_app_or in H as [H | H].
    + vm_compute in H. intuition discriminate.
    + revert H. apply He. simpl; tauto.
Qed.

Lemma literal_has_none_of (chars : str) (text : string) :
  forallb (fun c => negb (Urllib.mem c (lit text))) chars = true ->
  none_of chars (lit text).
Proof.
  intros H c Hc Hin.
  rewrite forallb_forall in H. specialize (H c Hc).
  apply negb_true_iff in H. unfold Urllib.mem in H.
  assert (existsb (N.eqb c) (lit text) = true); [| congruence].
  apply existsb_exists. exists c. split; [exact Hin | apply N.eqb_refl].
Qed.

(** X8. A request [/name?id=i&event=e] whose [name] has no [?], [#], tab or
    line break and does not start with a slash, and whose non-empty values
    [i] and [e] have no [&], [+], [%], [#], tab or line break, is taken
    apart exactly: the handler prints the target, [i] as the identifier,
    the preview and the length of [e], then runs the decoding on [e] as it
    was sent, and calls the inherited handler on the unchanged target. *)
Theorem plain_request_reaches_the_decoder name i e :
  hd_error name <> Some 47%N ->
  none_of [63; 35; 9; 13; 10]%N name ->
  none_of [38; 43; 37; 35; 9; 13; 10]%N i ->
  none_of [38; 43; 37; 35; 9; 13; 10]%N e ->
  i <> [] -> e <> [] ->
  let path := (lit "/" ++ name ++ lit "?id=" ++ i ++ lit "&event=" ++ e)%list in
  do_GET path =
  (([Print [Lit (newline ++ "📨 Request: "); Fmt (VStr path)];
     Print [Lit "🎯 Event ID: "; Fmt (VStr i)];
     Print [Lit "📦 Event Data: "; Fmt (VStr (firstn 50 e));
            Fmt (VStr (lit (if (50 <? List.length e)%nat then "..." else "")))];
     Print [Lit "📏 Event Data Size: "; Fmt (VInt (Z.of_nat (List.length e)));
            Lit " characters"]], Ok tt);;
   decode_and_log e;;
   ([SuperDoGET path], Ok tt)).
Proof.
  intros Hhd Hname Hi He Hine Hene path.
  assert (Hq : Urllib.urlparse_query path =
               Ok (lit "id=" ++ i ++ lit "&event=" ++ e)%list).
  { apply (urlparse_query_origin_form name (lit "id=" ++ i ++ lit "&event=" ++ e)%list
             Hhd).
    - apply Hname. simpl; tauto.
    - intros c Hc. split; [apply Hname; simpl in *; tauto |].
      revert c Hc.
      change (none_of [35; 9; 13; 10]%N (lit "id=" ++ i ++ lit "&event=" ++ e)%list).
      repeat apply none_of_app;
        first [ now apply literal_has_none_of
              | eapply none_of_sub; [| eassumption]; intros c Hc; simpl in *; tauto ]. }
  assert (Hqs : Urllib.parse_qs (lit "id=" ++ i ++ lit "&event=" ++ e)%list =
                [(lit "id", [i]); (lit "event", [e])]).
  { apply parse_qs_id_and_event; try assumption;
      (eapply none_of_sub; [| eassumption]; intros c Hc; simpl in *; tauto). }
  destruct e as [| c data]; [congruence |].
  apply (do_GET_with_event path _ i [] c data [] Hq); rewrite Hqs; reflexivity.
Qed.

Lemma plain_request_reaches_the_decoder_witness :
  let path := (lit "/" ++ lit "index.html" ++ lit "?id=" ++ lit "a1"
               ++ lit "&event=" ++ lit "e30=")%list in
  do_GET path =
  (([Print [Lit (newline ++ "📨 Request: "); Fmt (VStr path)];
     Print [Lit "🎯 Event ID: "; Fmt (VStr (lit "a1"))];
     Print [Lit "📦 Event Data: "; Fmt (VStr (firstn 50 (lit "e30=")));
            Fmt (VStr (lit (if (50 <? List.length (lit "e30="))%nat
                            then "..." else "")))];
     Print [Lit "📏 Event Data Size: ";
            Fmt (VInt (Z.of_nat (List.length (lit "e30=")))); Lit " characters"]],
    Ok tt);;
   decode_and_log (lit "e30=");;
   ([SuperDoGET path], Ok tt)).
Proof.
  apply (plain_request_reaches_the_decoder (lit "index.html") (lit "a1") (lit "e30="));
    try discriminate; now apply literal_has_none_of.
Defined.

(** X9. Without [id] the [event] parameter is ignored: for a request
    [/name?event=e] of the same plain form the handler prints the request
    line and calls the inherited handler, with no preview, no note and no
    decoding, whatever [e] holds. *)
Theorem event_without_id_is_ignored name e :
  hd_error name <> Some 47%N ->
  none_of [63; 35; 9; 13; 10]%N name ->
  none_of [38; 43; 37; 35; 9; 13; 10]%N e ->
  e <> [] ->
  let path := (lit "/" ++ name ++ lit "?event=" ++ e)%list in
  do_GET path =
  ([Print [Lit (newline ++ "📨 Request: "); Fmt (VStr path)]; SuperDoGET path], Ok tt).
Proof.
  intros Hhd Hname He Hene path.
  assert (Hq : Urllib.urlparse_query path = Ok (lit "event=" ++ e)%list).
  { apply (urlparse_query_origin_form name (lit "event=" ++ e)%list Hhd).
    - apply Hname. simpl; tauto.
    - intros c Hc. split; [apply Hname; simpl in *; tauto |].
      revert c Hc. change (none_of [35; 9; 13; 10]%N (lit "event=" ++ e)%list).
      apply none_of_app; [now apply literal_has_none_of |].
      eapply none_of_sub; [| exact He]. intros c Hc. simpl in *. tauto. }
  apply (do_GET_without_id path _ Hq).
  rewrite parse_qs_event_only; [reflexivity | | exact Hene].
  eapply none_of_sub; [| exact He]. intros c Hc. simpl in *. tauto.
Qed.

Lemma event_without_id_is_ignored_witness :
  let path := (lit "/" ++ lit "app.js" ++ lit "?event=" ++ lit "e30")%list in
  do_GET path =
  ([Print [Lit (newline ++ "📨 Request: "); Fmt (VStr path)]; SuperDoGET path], Ok tt).
Proof.
  apply (event_without_id_is_ignored (lit "app.js") (lit "e30"));
    try discriminate; now apply literal_has_none_of.
Defined.

(** ** Repeated parameters *)

Lemma str_eqb_eq a b : str_eqb a b = true <-> a = b.
Proof.
  revert b. induction a as [| x a IH]; intros [| y b]; simpl; split;
    try discriminate; try reflexivity.
  - intros H. apply andb_prop in H as [Hx Ha].
    apply N.eqb_eq in Hx. apply IH in Ha. now subst.
  - intros [= -> ->]. rewrite N.eqb_refl. now apply IH.
Qed.

Lemma dict_find_set_same {V} key (v : V) d :
  dict_find key (dict_set key v d) = Some v.
Proof.
  induction d as [| [k w] rest IH]; simpl.
  - now rewrite (proj2 (str_eqb_eq key key) eq_refl).
  - destruct (str_eqb k key) eqn:E; simpl; rewrite E; [reflexivity | exact IH].
Qed.

Lemma dict_find_set_other {V} key key' (v : V) d :
  str_eqb key key' = false ->
  dict_find key' (dict_set key v d) = dict_find key' d.
Proof.
  intros Hne. induction d as [| [k w] rest IH]; simpl.
  - now rewrite Hne.
  - destruct (str_eqb k key) eqn:E; simpl.
    + apply str_eqb_eq in E. subst k. now rewrite Hne.
    + destruct (str_eqb k key'); [reflexivity | exact IH].
Qed.

(** What [parse_qs] stores under a name: the values of the fields with that
    name, in the order of the query. *)
Lemma fold_add_pair_lookup key pairs : forall d,
  dict_find key (fold_left Urllib.add_pair pairs d) =
  let values := map snd (filter (fun nv => str_eqb (fst nv) key) pairs) in
  match dict_find key d with
  | Some old => Some (old ++ values)%list
  | None => match values with
            | [] => None
            | _ :: _ => Some values
            end
  end.
Proof.
  induction pairs as [| [name value] pairs IH]; intros d; cbn zeta.
  - simpl. destruct (dict_find key d); [now rewrite app_nil_r | reflexivity].
  - cbn [fold_left]. rewrite IH. cbn zeta. cbn [filter fst].
    unfold Urllib.add_pair.
    destruct (str_eqb name key) eqn:E.
    + apply str_eqb_eq in E. subst name. cbn [map snd].
      destruct (dict_find key d) as [old |]; rewrite dict_find_set_same.
      * now rewrite <- app_assoc.
      * reflexivity.
    + destruct (dict_find name d) as [old |]; now rewrite dict_find_set_other.
Qed.

(** X10. When [id] or [event] is given several times, the handler works on
    the first occurrence: with [i] the value of the first [id] field of the
    query and [e] that of the first [event] field, the identifier line shows
    [i], and the preview and the length are those of [e]. *)
Theorem first_occurrence_of_a_repeated_parameter_is_used path query i ids e events :
  Urllib.urlparse_query path = Ok query ->
  map snd (filter (fun nv => str_eqb (fst nv) (lit "id")) (Urllib.parse_qsl query))
    = i :: ids ->
  map snd (filter (fun nv => str_eqb (fst nv) (lit "event")) (Urllib.parse_qsl query))
    = e :: events ->
  exists rest,
    fst (do_GET path) =
    Print [Lit (newline ++ "📨 Request: "); Fmt (VStr path)]
    :: Print [Lit "🎯 Event ID: "; Fmt (VStr i)]
    :: Print [Lit "📦 Event Data: "; Fmt (VStr (firstn 50 e));
              Fmt (VStr (lit (if (50 <? List.length e)%nat then "..." else "")))]
    :: Print [Lit "📏 Event Data Size: "; Fmt (VInt (Z.of_nat (List.length e)));
              Lit " characters"]
    :: rest.
Proof.
  intros Hq Hid Hev.
  assert (Hfind_id : dict_find (lit "id") (Urllib.parse_qs query) = Some (i :: ids)).
  { unfold Urllib.parse_qs. rewrite fold_add_pair_lookup. cbn zeta.
    now rewrite Hid. }
  assert (Hfind_ev : dict_find (lit "event") (Urllib.parse_qs query)
                     = Some (e :: events)).
  { unfold Urllib.parse_qs. rewrite fold_add_pair_lookup. cbn zeta.
    now rewrite Hev. }
  destruct (parse_qs_find _ _ _ Hfind_ev) as (e' & events' & [= <- <-] & Hne).
  destruct e as [| c data]; [congruence |].
  rewrite (do_GET_with_event _ _ _ _ _ _ _ Hq Hfind_id Hfind_ev), bind_ok.
  eexists. reflexivity.
Qed.

Lemma first_occurrence_of_a_repeated_parameter_is_used_witness :
  exists rest,
    fst (do_GET (lit "/?id=one&event=e30&id=two&event=WzFd")) =
    Print [Lit (newline ++ "📨 Request: ");
           Fmt (VStr (lit "/?id=one&event=e30&id=two&event=WzFd"))]
    :: Print [Lit "🎯 Event ID: "; Fmt (VStr (lit "one"))]
    :: Print [Lit "📦 Event Data: "; Fmt (VStr (firstn 50 (lit "e30")));
              Fmt (VStr (lit (if (50 <? List.length (lit "e30"))%nat
                              then "..." else "")))]
    :: Print [Lit "📏 Event Data Size: ";
              Fmt (VInt (Z.of_nat (List.length (lit "e30")))); Lit " characters"]
    :: rest.
Proof.
  apply (first_occurrence_of_a_repeated_parameter_is_used
           (lit "/?id=one&event=e30&id=two&event=WzFd")
           (lit "id=one&event=e30&id=two&event=WzFd")
           (lit "one") [lit "two"] (lit "e30") [lit "WzFd"]);
    reflexivity.
Defined.

(** * The entry point *)

(** X11. The process exits with a status only through the interrupt of
    [serve_forever]: if [main] ends in an exit, the status is 0, the
    directory change and the bind had succeeded, [serve_forever] was ended
    by [KeyboardInterrupt], and the last things done were printing the stop
    notice and closing the server. *)
Theorem exit_status_comes_only_from_interrupt demo_dir w status :
  snd (Main.main demo_dir w) = Main.Exits status ->
  status = 0%Z /\
  Main.chdir_result w = None /\
  Main.bind_result w = None /\
  Main.serve_result w = Some Main.KeyboardInterrupt /\
  exists before,
    fst (Main.main demo_dir w) =
    (before ++
     [Main.ServeForever;
      Main.Say [Lit (newline ++ newline ++ "🛑 Server stopped")];
      Main.ServerClose])%list.
Proof.
  unfold Main.main.
  destruct (Main.chdir_result w) as [f |]; [discriminate |].
  destruct (Main.bind_result w) as [f |]; [discriminate |].
  destruct (Main.serve_result w) as [[msg | | e] |]; try discriminate.
  intros [= <-]. repeat split. eexists. reflexivity.
Qed.

Lemma exit_status_comes_only_from_interrupt_witness :
  let w := {| Main.chdir_result := None; Main.bind_result := None;
              Main.serve_result := Some Main.KeyboardInterrupt |} in
  0%Z = 0%Z /\
  Main.chdir_result w = None /\
  Main.bind_result w = None /\
  Main.serve_result w = Some Main.KeyboardInterrupt /\
  exists before,
    fst (Main.main (lit "/srv/demo") w) =
    (before ++
     [Main.ServeForever;
      Main.Say [Lit (newline ++ newline ++ "🛑 Server stopped")];
      Main.ServerClose])%list.
Proof.
  intros w. apply (exit_status_comes_only_from_interrupt (lit "/srv/demo") w 0%Z).
  reflexivity.
Defined.

(** X12. Whatever the outside does, [main] closes the server exactly when it
    had entered [serve_forever], and as its last effect; and it enters
    [serve_forever] only after the directory change, the five banner lines
    and the bind on port 8000 of all interfaces, in this order. *)
Theorem server_is_closed_whenever_it_served demo_dir w :
  (In Main.ServeForever (fst (Main.main demo_dir w)) <->
   In Main.ServerClose (fst (Main.main demo_dir w))) /\
  (In Main.ServeForever (fst (Main.main demo_dir w)) ->
   exists after,
     fst (Main.main demo_dir w) =
     ([Main.Chdir demo_dir;
       Main.Say [Lit "🚀 Starting PubSub Demo PWA Server"];
       Main.Say [Lit "📂 Serving from: "; Fmt (VStr demo_dir)];
       Main.Say [Lit "🌐 URL: http://localhost:"; Fmt (VInt 8000)];
       Main.Say [Lit "📱 Use this URL as your target URI in the PWA"];
       Main.Say [Fmt (VStr (repeat 61%N 50))];
       Main.Listen [] 8000;
       Main.ServeForever] ++ after ++ [Main.ServerClose])%list).
Proof.
  unfold Main.main.
  destruct (Main.chdir_result w) as [f |].
  { split; [split |]; simpl; intros [H | []]; discriminate. }
  destruct (Main.bind_result w) as [f |].
  { split; [split |]; simpl; intuition discriminate. }
  destruct (Main.serve_result w) as [[msg | | e] |]; cbn [fst app];
    (split; [split; intros _; simpl; tauto |]); intros _.
  - now exists [].
  - now exists [Main.Say [Lit (newline ++ newline ++ "🛑 Server stopped")]].
  - now exists [].
  - now exists [].
Qed.

Lemma server_is_closed_whenever_it_served_witness :
  let w := {| Main.chdir_result := None; Main.bind_result := None;
              Main.serve_result := Some (Main.OSError "Bad file descriptor") |} in
  exists after,
    fst (Main.main (lit "/srv/demo") w) =
    ([Main.Chdir (lit "/srv/demo");
      Main.Say [Lit "🚀 Starting PubSub Demo PWA Server"];
      Main.Say [Lit "📂 Serving from: "; Fmt (VStr (lit "/srv/demo"))];
      Main.Say [Lit "🌐 URL: http://localhost:"; Fmt (VInt 8000)];
      Main.Say [Lit "📱 Use this URL as your target URI in the PWA"];
      Main.Say [Fmt (VStr (repeat 61%N 50))];
      Main.Listen [] 8000;
      Main.ServeForever] ++ after ++ [Main.ServerClose])%list.
Proof.
  intros w. apply (proj2 (server_is_closed_whenever_it_served (lit "/srv/demo") w)).
  simpl. tauto.
Defined.

(** * Plus signs in the query *)

Lemma split_once_parts sep s a b :
  Urllib.split_once sep s = Some (a, b) ->
  forall c, In c a \/ In c b -> In c s.
Proof.
  revert a. induction s as [| x r IH]; intros a; simpl; [discriminate |].
  destruct (x =? sep)%N.
  - intros [= <- <-] c [[] | H]. now right.
  - destruct (Urllib.split_once sep r) as [[a' b'] |]; [| discriminate].
    intros [= <- <-] c [[-> | H] | H]; [now left | right | right];
      apply (IH a' eq_refl); tauto.
Qed.

Lemma split_pieces sep s :
  forall piece, In piece (Urllib.split sep s) -> forall c, In c piece -> In c s.
Proof.
  induction s as [| x r IH]; simpl.
  - intros piece [<- | []] c [].
  - destruct (x =? sep)%N.
    + intros piece [<- | H] c Hc; [destruct Hc | right; now apply (IH piece)].
    + destruct (Urllib.split sep r) as [| h t] eqn:E.
      * intros piece [<- | []] c [-> | []]. now left.
      * intros piece [<- | H] c Hc.
        -- destruct Hc as [-> | Hc]; [now left | right].
           apply (IH h); [now left | exact Hc].
        -- right. apply (IH piece); [now right | exact Hc].
Qed.

Lemma plus_to_space_has_no_plus s : ~ In 43%N (Urllib.plus_to_space s).
Proof.
  unfold Urllib.plus_to_space. induction s as [| c r IH]; simpl; [tauto |].
  intros [H | H]; [| now apply IH].
  destruct (N.eqb_spec c 43); [discriminate | congruence].
Qed.

Lemma plus_to_space_keeps_absent x s :
  x <> 32%N -> ~ In x s -> ~ In x (Urllib.plus_to_space s).
Proof.
  intros Hx. unfold Urllib.plus_to_space.
  induction s as [| c r IH]; simpl; [tauto |].
  intros Hnot [H | H].
  - destruct (c =? 43)%N; [congruence | apply Hnot; now left].
  - apply IH; [intros H'; apply Hnot; now right | exact H].
Qed.

Lemma parse_field_no_plus field :
  ~ In 37%N field ->
  Forall (fun nv => ~ In 43%N (snd nv)) (Urllib.parse_field field).
Proof.
  intros Hnot. unfold Urllib.parse_field.
  destruct field as [| c r]; [constructor |].
  destruct (Urllib.split_once 61 (c :: r)) as [[name value] |] eqn:E; [| constructor].
  destruct value as [| v vs]; constructor; [| constructor].
  cbn [snd]. unfold Urllib.unquote.
  rewrite unquote_acc_id; [apply plus_to_space_has_no_plus | | intros [] | reflexivity].
  apply plus_to_space_keeps_absent; [discriminate |].
  intros H. apply Hnot. apply (split_once_parts _ _ _ _ E). now right.
Qed.

Lemma parse_qsl_no_plus qs :
  ~ In 37%N qs ->
  Forall (fun nv => ~ In 43%N (snd nv)) (Urllib.parse_qsl qs).
Proof.
  intros Hnot. unfold Urllib.parse_qsl. destruct qs as [| c r]; [constructor |].
  pose proof (split_pieces 38 (c :: r)) as Hpieces.
  induction (Urllib.split 38 (c :: r)) as [| f fs IH]; simpl; [constructor |].
  apply Forall_app. split.
  - apply parse_field_no_plus. intros H. apply Hnot.
    apply (Hpieces f); [now left | exact H].
  - apply IH. intros piece Hp. apply Hpieces. now right.
Qed.

Lemma add_pair_no_plus (d : list (str * list str)) (pair : str * str) :
  ~ In 43%N (snd pair) ->
  all_values (Forall (fun v : str => ~ In 43%N v)) d ->
  all_values (Forall (fun v : str => ~ In 43%N v)) (Urllib.add_pair d pair).
Proof.
  destruct pair as [name value]. simpl. intros Hv Hd.
  destruct (dict_find name d) as [values |] eqn:E.
  - apply dict_set_all_values; [| exact Hd].
    apply Forall_app. split.
    + exact (dict_find_all_values _ name values d Hd E).
    + constructor; [exact Hv | constructor].
  - apply dict_set_all_values; [| exact Hd].
    constructor; [exact Hv | constructor].
Qed.

(** X13. In a query without percent escapes, no plus sign reaches the
    handler: [parse_qs] turns each one into a space, so no value it stores
    holds a [+]. (A value in the standard base64 alphabet therefore loses
    its plus signs before the padding is computed.) *)
Theorem plus_signs_never_reach_the_handler qs key values v :
  ~ In 37%N qs ->
  dict_find key (Urllib.parse_qs qs) = Some values ->
  In v values ->
  ~ In 43%N v.
Proof.
  intros Hnot Hfind Hv.
  assert (Hall : all_values (Forall (fun v : str => ~ In 43%N v)) (Urllib.parse_qs qs)).
  { unfold Urllib.parse_qs.
    assert (H : all_values (Forall (fun v : str => ~ In 43%N v))
                  (@nil (str * list str))) by constructor.
    revert H. generalize (@nil (str * list str)).
    induction (parse_qsl_no_plus qs Hnot) as [| pair pairs Hp _ IH];
      intros d Hd; simpl; [exact Hd |].
    apply IH. now apply add_pair_no_plus. }
  pose proof (dict_find_all_values _ key values _ Hall Hfind) as Hvalues.
  rewrite Forall_forall in Hvalues. now apply Hvalues.
Qed.

Lemma plus_signs_never_reach_the_handler_witness :
  ~ In 43%N (lit "a b/").
Proof.
  apply (plus_signs_never_reach_the_handler (lit "id=1&event=a+b/") (lit "event")
           [lit "a b/"] (lit "a b/")).
  - vm_compute. intuition discriminate.
  - reflexivity.
  - now left.
Defined.

(** * The exceptions of the decoding steps *)

(** Closes a goal [... = Raise e -> is_decode_error e] by walking through
    the branches of the function on the left. *)
Ltac raise_sites :=
  repeat first
    [ progress cbn [rbind]
    | match goal with
      | |- Raise _ = Raise _ -> _ => intros [= <-]; exact I
      | |- Ok _ = Raise _ -> _ => discriminate
      | |- OutOfModel = Raise _ -> _ => discriminate
      | H : forall x y, _ -> is_decode_error _ |- _ = Raise _ -> is_decode_error _ =>
          solve [apply H]
      | |- context [if ?b then _ else _] => destruct b
      | |- context [match ?x with _ => _ end] =>
          first [ is_var x; destruct x
                | let E := fresh "E" in destruct x eqn:E ]
      | |- context [let '(_, _) := ?x in _] => destruct x
      end ].

Lemma a2b_loop_raises data : forall quad_pos leftchar pads out e,
  Base64.a2b_loop data quad_pos leftchar pads out = Raise e -> is_decode_error e.
Proof.
  induction data as [| c rest IH]; intros quad_pos leftchar pads out e;
    cbn [Base64.a2b_loop].
  - destruct quad_pos as [| [| m]]; raise_sites.
  - destruct (c =? 61)%N.
    + destruct (2 <=? quad_pos)%nat; [destruct (4 <=? quad_pos + S pads)%nat |];
        first [discriminate | apply IH].
    + destruct (Base64.b64_value c) as [v |]; [| apply IH].
      destruct quad_pos as [| [| [| m]]]; apply IH.
Qed.

Lemma urlsafe_b64decode_raises s e :
  Base64.urlsafe_b64decode s = Raise e -> is_decode_error e.
Proof.
  unfold Base64.urlsafe_b64decode, Base64.bytes_from_decode_data.
  destruct (forallb (fun c => (c <? 128)%N) s); cbn [rbind].
  - apply a2b_loop_raises.
  - intros [= <-]. exact I.
Qed.

Lemma utf8_decode_raises fuel : forall pos bs e,
  Utf8.decode_strict_from fuel pos bs = Raise e -> is_decode_error e.
Proof.
  induction fuel as [| fuel IH]; intros pos bs e; destruct bs as [| b0 r];
    cbn [Utf8.decode_strict_from]; try discriminate.
  destruct (Utf8.decode1 b0 r) as [cp rest | bad rest].
  - destruct (Utf8.decode_strict_from fuel
                (pos + (List.length (b0 :: r) - List.length rest)) rest) eqn:E;
      cbn [rbind]; try discriminate.
    intros [= <-]. exact (IH _ _ _ E).
  - intros [= <-]. exact I.
Qed.

Lemma scanstring_loop_raises fuel : forall s out e,
  Json.scanstring_loop fuel s out = Raise e -> is_decode_error e.
Proof.
  induction fuel as [| fuel IH]; intros s out e; cbn [Json.scanstring_loop];
    [discriminate |].
  destruct s as [| c r]; [intros [= <-]; exact I |].
  destruct (c =? 34)%N; [discriminate |].
  destruct (negb (c =? 92)%N).
  { destruct (c <=? 31)%N; [intros [= <-]; exact I | apply IH]. }
  destruct r as [| x r1]; [intros [= <-]; exact I |].
  destruct (negb (x =? 117)%N).
  { destruct (Json.escape x); [apply IH | intros [= <-]; exact I]. }
  destruct r1 as [| h1 [| h2 [| h3 [| h4 [| c5 r2]]]]];
    try (intros [= <-]; exact I).
  destruct (Json.hex4 h1 h2 h3 h4) as [v |]; [| intros [= <-]; exact I].
  destruct r2 as [| g1 [| g2 [| g3 [| g4 [| g5 [| c6 r3]]]]]]; try apply IH.
  destruct (Json.is_high_surrogate v && (c5 =? 92)%N && (g1 =? 117)%N);
    [| apply IH].
  destruct (Json.hex4 g2 g3 g4 g5) as [v2 |]; [| intros [= <-]; exact I].
  destruct (Json.is_low_surrogate v2); apply IH.
Qed.

Lemma scanstring_raises s e : Json.scanstring s = Raise e -> is_decode_error e.
Proof.
  unfold Json.scanstring.
  destruct (Json.scanstring_loop (S (List.length s)) s []) as [[chars rest] | e' | ] eqn:E;
    cbn [rbind]; try discriminate.
  - destruct (existsb Json.is_surrogate chars); discriminate.
  - intros [= <-]. exact (scanstring_loop_raises _ _ _ _ E).
Qed.

Lemma match_number_raises s e :
  Json.match_number s = Some (Raise e) -> is_decode_error e.
Proof.
  unfold Json.match_number.
  match goal with |- (let '(_, _) := ?x in _) = _ -> _ => destruct x as [neg s1] end.
  cbv zeta.
  match goal with |- match ?x with _ => _ end = _ -> _ => destruct x as [[ds s2] |] end;
    [| discriminate].
  destruct (Json.skip_frac s2) as [has_frac s3].
  destruct (Json.skip_exp s3) as [has_exp s4].
  destruct (has_frac || has_exp); [discriminate |].
  destruct (Json.max_str_digits <? List.length ds)%nat; [| discriminate].
  intros [= <-]. exact I.
Qed.

Lemma scan_atom_raises s e : Json.scan_atom s = Raise e -> is_decode_error e.
Proof.
  unfold Json.scan_atom.
  repeat match goal with
         | |- match Json.strip_prefix ?p ?s with _ => _ end = _ -> _ =>
             destruct (Json.strip_prefix p s); [discriminate |]
         end.
  destruct (Json.match_number s) as [[r | e' | ] |] eqn:E; try discriminate.
  - intros [= <-]. exact (match_number_raises _ _ E).
  - intros [= <-]. exact I.
Qed.

Section ContainersRaise.
Variable scan : str -> result (value * str).
Hypothesis scan_raises : forall s e, scan s = Raise e -> is_decode_error e.

Lemma array_loop_raises fuel : forall s acc e,
  Json.array_loop scan fuel s acc = Raise e -> is_decode_error e.
Proof.
  induction fuel as [| fuel IH]; intros s acc e; cbn [Json.array_loop];
    [discriminate |].
  destruct (scan s) as [[v s1] | e' | ] eqn:E; cbn [rbind]; try discriminate.
  - destruct (Json.skip_ws s1) as [| c r]; [intros [= <-]; exact I |].
    destruct (c =? 93)%N; [discriminate |].
    destruct (c =? 44)%N; [apply IH | intros [= <-]; exact I].
  - intros [= <-]. exact (scan_raises _ _ E).
Qed.

Lemma parse_array_raises s e :
  Json.parse_array scan s = Raise e -> is_decode_error e.
Proof.
  unfold Json.parse_array.
  destruct (Json.skip_ws s) as [| c r]; [apply array_loop_raises |].
  destruct (c =? 93)%N; [discriminate | apply array_loop_raises].
Qed.

Lemma object_loop_raises fuel : forall s acc e,
  Json.object_loop scan fuel s acc = Raise e -> is_decode_error e.
Proof.
  induction fuel as [| fuel IH]; intros s acc e; cbn [Json.object_loop];
    [discriminate |].
  destruct s as [| q r0]; [intros [= <-]; exact I |].
  destruct (q =? 34)%N; [| intros [= <-]; exact I].
  destruct (Json.scanstring r0) as [[key s1] | e' | ] eqn:Ekey; cbn [rbind];
    try discriminate; [| intros [= <-]; exact (scanstring_raises _ _ Ekey)].
  destruct (Json.skip_ws s1) as [| colon r1]; [intros [= <-]; exact I |].
  destruct (colon =? 58)%N; [| intros [= <-]; exact I].
  destruct (scan (Json.skip_ws r1)) as [[v s2] | e' | ] eqn:E; cbn [rbind];
    try discriminate; [| intros [= <-]; exact (scan_raises _ _ E)].
  destruct (Json.skip_ws s2) as [| c r]; [intros [= <-]; exact I |].
  destruct (c =? 125)%N; [discriminate |].
  destruct (c =? 44)%N; [apply IH | intros [= <-]; exact I].
Qed.

Lemma parse_object_raises s e :
  Json.parse_object scan s = Raise e -> is_decode_error e.
Proof.
  unfold Json.parse_object.
  destruct (Json.skip_ws s) as [| c r]; [apply object_loop_raises |].
  destruct (c =? 125)%N; [discriminate | apply object_loop_raises].
Qed.
End ContainersRaise.

Lemma scan_once_raises depth : forall s e,
  Json.scan_once depth s = Raise e -> is_decode_error e.
Proof.
  induction depth as [| depth IH]; intros s e; destruct s as [| c r];
    cbn [Json.scan_once]; try (intros [= <-]; exact I).
  - destruct (c =? 34)%N.
    { destruct (Json.scanstring r) as [[chars rest] | e' | ] eqn:E; cbn [rbind];
        try discriminate. intros [= <-]. exact (scanstring_raises _ _ E). }
    destruct (c =? 123)%N; [discriminate |].
    destruct (c =? 91)%N; [discriminate | apply scan_atom_raises].
  - destruct (c =? 34)%N.
    { destruct (Json.scanstring r) as [[chars rest] | e' | ] eqn:E; cbn [rbind];
        try discriminate. intros [= <-]. exact (scanstring_raises _ _ E). }
    destruct (c =? 123)%N; [now apply parse_object_raises |].
    destruct (c =? 91)%N; [now apply parse_array_raises | apply scan_atom_raises].
Qed.

Lemma loads_raises s e : Json.loads s = Raise e -> is_decode_error e.
Proof.
  assert (Hscan : rbind (Json.scan_once Json.max_depth (Json.skip_ws s))
                    (fun '(v, rest) =>
                       match Json.skip_ws rest with
                       | [] => Ok v
                       | _ :: _ => Raise (JSONDecodeError "Extra data")
                       end) = Raise e -> is_decode_error e).
  { destruct (Json.scan_once Json.max_depth (Json.skip_ws s))
      as [[v rest] | e' | ] eqn:E; cbn [rbind]; try discriminate.
    - destruct (Json.skip_ws rest); [discriminate | intros [= <-]; exact I].
    - intros [= <-]. exact (scan_once_raises _ _ _ E). }
  unfold Json.loads. destruct s as [| c r]; [exact Hscan |].
  destruct (N.eq_dec c 65279) as [-> | Hc]; [intros [= <-]; exact I |].
  destruct c as [| p]; [exact Hscan |].
  do 16 (try destruct p as [p | p |]; try exact Hscan).
  now destruct Hc.
Qed.

Lemma decode_event_raises event_data e :
  decode_event event_data = Raise e -> is_decode_error e.
Proof.
  unfold decode_event.
  destruct (Base64.urlsafe_b64decode (padded event_data)) as [bytes | e' | ] eqn:E1;
    cbn [rbind]; try discriminate;
    [| intros [= <-]; exact (urlsafe_b64decode_raises _ _ E1)].
  destruct (Utf8.decode bytes) as [text | e' | ] eqn:E2; cbn [rbind];
    try discriminate;
    [apply loads_raises | intros [= <-]; exact (utf8_decode_raises _ _ _ _ E2)].
Qed.

Lemma print_event_starts_with_success_line event :
  exists rest,
    fst (print_event event) = Print [Lit "✅ Event decoded successfully:"] :: rest.
Proof. unfold print_event. rewrite bind_print. eexists. reflexivity. Qed.

(** X14. A failure notice that carries an [AttributeError] or a
    [TypeError] never comes from the decoding steps: whenever the [try]
    statement prints such a notice, the success line was printed first, so
    the event had been decoded and it is a field, or the event itself, that
    has the wrong type. *)
Theorem shape_errors_follow_the_success_line data e :
  In (Print [Lit "❌ Error decoding event: "; FmtExn e]) (fst (decode_and_log data)) ->
  (exists msg, e = AttributeError msg \/ e = TypeError msg) ->
  hd_error (fst (decode_and_log data)) =
  Some (Print [Lit "✅ Event decoded successfully:"]).
Proof.
  intros Hin Hshape.
  destruct (decode_event data) as [event | e' | ] eqn:Hdec.
  - rewrite (decode_and_log_ok _ _ Hdec).
    destruct (try_except_prefix (print_event event)
                (fun x => print [Lit "❌ Error decoding event: "; FmtExn x]))
      as [t ->].
    destruct (print_event_starts_with_success_line event) as [rest ->].
    reflexivity.
  - rewrite (decode_and_log_raise _ _ Hdec) in Hin.
    destruct Hin as [[= <-] | []].
    pose proof (decode_event_raises _ _ Hdec) as Hkind.
    destruct Hshape as [msg [-> | ->]]; destruct Hkind.
  - unfold decode_and_log in Hin. rewrite Hdec in Hin. destruct Hin.
Qed.

Lemma shape_errors_follow_the_success_line_witness :
  hd_error (fst (decode_and_log (lit "WzFd"))) =
  Some (Print [Lit "✅ Event decoded successfully:"]).
Proof.
  apply (shape_errors_follow_the_success_line (lit "WzFd")
           (AttributeError "'list' object has no attribute 'get'")).
  - vm_compute. right. left. reflexivity.
  - eexists. left. reflexivity.
Defined.
